(** * Contaminant Analysis and Mapping: the dashboard script [streamlit_app.py]

    The script is a straight pipeline over two pandas tables.  Each table is
    a list of rows, each pandas operation the script calls is a list
    function, and one run of the script is the function [app] from the two
    uploads and the widgets' answers to the list of elements it displays. *)

From Stdlib Require Import ZArith List String Ascii Bool Lia.
From Stdlib Require Import Permutation Sorted.
From Stdlib Require Import Floats.SpecFloat.
Import ListNotations.

Local Open Scope bool_scope.
Local Open Scope list_scope.

(* ================================================================== *)
(** * Part I: definitions *)
(* ================================================================== *)

(** ** float64 columns

    A float64 value is an IEEE binary64 datum ([spec_float] at precision 53);
    comparisons are the IEEE ones, so every comparison with NaN is false. *)
Module Float64.

Definition float : Type := spec_float.

Definition prec : Z := 53.
Definition emax : Z := 1024.

Definition nan : float := S754_nan.
Definition zero : float := S754_zero false.

Definition of_Z (z : Z) : float := binary_normalize prec emax z 0 false.

Definition is_nan (x : float) : bool :=
  match x with S754_nan => true | _ => false end.

Definition notna (x : float) : bool := negb (is_nan x).

(** [x <= y], [x >= y] and [x < y] on a float64 column. *)
Definition leb (x y : float) : bool := SFleb x y.
Definition geb (x y : float) : bool := leb y x.
Definition ltb (x y : float) : bool := SFltb x y.

Definition add (x y : float) : float := SFadd prec emax x y.
Definition div (x y : float) : float := SFdiv prec emax x y.

(** The smaller and the larger of two values, the first one on a tie. *)
Definition fmin (x y : float) : float := if ltb y x then y else x.
Definition fmax (x y : float) : float := if ltb x y then y else x.

(** [Series.min()] and [Series.max()] with the default [skipna=True]:
    NaN when nothing is left to compare. *)
Definition series_min (l : list float) : float :=
  match filter notna l with
  | [] => nan
  | x :: xs => fold_left fmin xs x
  end.

Definition series_max (l : list float) : float :=
  match filter notna l with
  | [] => nan
  | x :: xs => fold_left fmax xs x
  end.

(** [Series.mean()] with [skipna=True]: the float64 sum of the values over
    their count.  The additions are taken left to right. *)
Definition sum (l : list float) : float := fold_left add l zero.

Definition mean (l : list float) : float :=
  let xs := filter notna l in
  div (sum xs) (of_Z (Z.of_nat (List.length xs))).

End Float64.

(** ** Python [str] methods behind the [.str] accessor

    Characters are code points below 256. *)
Module Str.

(** [str.isspace] on one character: TAB..CR, FS..US, space, NEL, NBSP. *)
Definition isspace (c : ascii) : bool :=
  let n := nat_of_ascii c in
  ((9 <=? n) && (n <=? 13)) || ((28 <=? n) && (n <=? 32))
  || (n =? 133) || (n =? 160).

(** [str.lower] on one character: A..Z and the Latin-1 capitals
    (0xC0..0xDE but the multiplication sign 0xD7) move up by 32. *)
Definition lower_char (c : ascii) : ascii :=
  let n := nat_of_ascii c in
  if ((65 <=? n) && (n <=? 90))
     || ((192 <=? n) && (n <=? 222) && negb (n =? 215))
  then ascii_of_nat (n + 32)
  else c.

Fixpoint lower (s : string) : string :=
  match s with
  | EmptyString => EmptyString
  | String c s' => String (lower_char c) (lower s')
  end.

Fixpoint lstrip (s : string) : string :=
  match s with
  | EmptyString => EmptyString
  | String c s' => if isspace c then lstrip s' else s
  end.

Fixpoint rstrip (s : string) : string :=
  match s with
  | EmptyString => EmptyString
  | String c s' =>
      match rstrip s' with
      | EmptyString => if isspace c then EmptyString else String c EmptyString
      | r => String c r
      end
  end.

Definition strip (s : string) : string := rstrip (lstrip s).

(** Every character of [s] is white space. *)
Fixpoint all_space (s : string) : bool :=
  match s with
  | EmptyString => true
  | String c s' => isspace c && all_space s'
  end.





End Str.

(** ** Cells and columns *)

Import Float64.

(** A cell of a column as [pd.read_csv] leaves it: nothing, a number (in a
    column inferred as numeric) or text (in an object column). *)
Inductive cell : Type :=
| Missing
| Num (x : float)
| Text (s : string).

(** [isna]: the missing marker and the float NaN. *)
Definition isna (c : cell) : bool :=
  match c with
  | Missing => true
  | Num x => is_nan x
  | Text _ => false
  end.

(** The cell holds a number in memory. *)
Definition is_numeric (c : cell) : bool :=
  match c with
  | Num x => notna x
  | _ => false
  end.

(** A string column: [None] is the missing value (NaN). *)
Definition label : Type := option string.

(** Hash equality of two labels, as [unique] and [isin] use it: the missing
    value equals itself. *)
Definition label_eqb (a b : label) : bool :=
  match a, b with
  | Some x, Some y => String.eqb x y
  | None, None => true
  | _, _ => false
  end.

(** Element-wise [column == value]: a comparison with the missing value is
    false on both sides. *)
Definition eq_value (a sel : label) : bool :=
  match a, sel with
  | Some x, Some y => String.eqb x y
  | _, _ => false
  end.

(** [Series.isin(values)]. *)
Definition isin (a : label) (values : list label) : bool :=
  existsb (label_eqb a) values.

(** [Series.unique()]: the distinct values in order of first appearance. *)
Fixpoint unique_acc (seen : list label) (l : list label) : list label :=
  match l with
  | [] => []
  | a :: l' =>
      if isin a seen then unique_acc seen l'
      else a :: unique_acc (a :: seen) l'
  end.

Definition unique (l : list label) : list label := unique_acc [] l.

(** [.str.strip().str.lower()] on a string column; the missing value stays. *)
Definition normalize (s : string) : string := Str.lower (Str.strip s).

Definition str_strip_lower (a : label) : label := option_map normalize a.

(** A timestamp is a count of nanoseconds since the epoch, a [datetime.date]
    a count of days since the epoch; [.dt.date] drops the time of day. *)
Definition timestamp : Type := Z.
Definition date : Type := Z.

Definition ns_per_day : Z := 86400000000000.

Definition dt_date (t : timestamp) : date := Z.div t ns_per_day.

(** The text parsers of pandas, taken as given: [pd.to_numeric] on a string
    (NaN when it is no number, under [errors='coerce']) and [pd.to_datetime]
    on a cell that is present ([None], NaT, when it is no date). *)
Class Parsers : Type := {
  numeric_of_text : string -> float;
  datetime_of_number : float -> option timestamp;
  datetime_of_text : string -> option timestamp
}.

(** [pd.to_numeric(column, errors='coerce')] on one cell. *)
Definition to_numeric `{Parsers} (c : cell) : float :=
  match c with
  | Missing => nan
  | Num x => x
  | Text s => numeric_of_text s
  end.

(** [pd.to_datetime(column, errors='coerce')] on one cell. *)
Definition to_datetime `{Parsers} (c : cell) : option timestamp :=
  match c with
  | Missing => None
  | Num x => if is_nan x then None else datetime_of_number x
  | Text s => datetime_of_text s
  end.

(** ** The two tables *)

Module Station.

(** A row of the station table. *)
Record row : Type := {
  MonitoringLocationIdentifier : label;
  LatitudeMeasure : cell;
  LongitudeMeasure : cell
}.

(** A row of [filtered_stations] once both coordinates are float64. *)
Record located : Type := {
  identifier : label;
  latitude : float;
  longitude : float
}.

End Station.

Module NarrowResult.

(** A row of the narrow result table as [pd.read_csv] returns it. *)
Record raw : Type := {
  raw_identifier : label;
  raw_characteristic : label;
  raw_date : cell;
  raw_value : cell
}.

(** The same row after the two conversions: the date may be NaT, the
    value NaN. *)
Record converted : Type := {
  conv_identifier : label;
  conv_characteristic : label;
  conv_date : option timestamp;
  conv_value : float
}.

(** A row of the loaded table. *)
Record row : Type := {
  MonitoringLocationIdentifier : label;
  CharacteristicName : label;
  ActivityStartDate : timestamp;
  ResultMeasureValue : float
}.

End NarrowResult.

(** ** Loading *)

(** [df.dropna(subset=['LatitudeMeasure', 'LongitudeMeasure'])]. *)
Definition load_station_data (file : list Station.row) : list Station.row :=
  filter (fun r => negb (isna (Station.LatitudeMeasure r))
                   && negb (isna (Station.LongitudeMeasure r)))
         file.

(** Lines 20-21: the date column through [pd.to_datetime], the value column
    through [pd.to_numeric], both with [errors='coerce']. *)
Definition convert `{Parsers} (r : NarrowResult.raw) : NarrowResult.converted :=
  {| NarrowResult.conv_identifier := NarrowResult.raw_identifier r;
     NarrowResult.conv_characteristic := NarrowResult.raw_characteristic r;
     NarrowResult.conv_date := to_datetime (NarrowResult.raw_date r);
     NarrowResult.conv_value := to_numeric (NarrowResult.raw_value r) |}.

(** [df.dropna(subset=['ActivityStartDate', 'ResultMeasureValue'])] on one
    row: [None] when the row is dropped. *)
Definition dropna_row (r : NarrowResult.converted) : option NarrowResult.row :=
  match NarrowResult.conv_date r with
  | None => None
  | Some t =>
      if is_nan (NarrowResult.conv_value r) then None
      else Some {| NarrowResult.MonitoringLocationIdentifier :=
                     NarrowResult.conv_identifier r;
                   NarrowResult.CharacteristicName :=
                     NarrowResult.conv_characteristic r;
                   NarrowResult.ActivityStartDate := t;
                   NarrowResult.ResultMeasureValue :=
                     NarrowResult.conv_value r |}
  end.

Fixpoint dropna (l : list NarrowResult.converted) : list NarrowResult.row :=
  match l with
  | [] => []
  | r :: l' =>
      match dropna_row r with
      | Some r' => r' :: dropna l'
      | None => dropna l'
      end
  end.

Definition load_narrowresult_data `{Parsers} (file : list NarrowResult.raw)
  : list NarrowResult.row :=
  dropna (map convert file).

(** ** Data cleaning: the identifier columns of both tables *)

Definition clean_station (r : Station.row) : Station.row :=
  {| Station.MonitoringLocationIdentifier :=
       str_strip_lower (Station.MonitoringLocationIdentifier r);
     Station.LatitudeMeasure := Station.LatitudeMeasure r;
     Station.LongitudeMeasure := Station.LongitudeMeasure r |}.

Definition clean_result (r : NarrowResult.row) : NarrowResult.row :=
  {| NarrowResult.MonitoringLocationIdentifier :=
       str_strip_lower (NarrowResult.MonitoringLocationIdentifier r);
     NarrowResult.CharacteristicName := NarrowResult.CharacteristicName r;
     NarrowResult.ActivityStartDate := NarrowResult.ActivityStartDate r;
     NarrowResult.ResultMeasureValue := NarrowResult.ResultMeasureValue r |}.

Definition clean_stations (df : list Station.row) : list Station.row :=
  map clean_station df.

Definition clean_results (df : list NarrowResult.row) : list NarrowResult.row :=
  map clean_result df.

(** ** Filter engine *)

Import NarrowResult.

(** The answer of [st.date_input]: one date, or a tuple of dates (of length
    two once both ends are picked). *)
Inductive date_input_value : Type :=
| OneDate (d : date)
| DateTuple (ds : list date).

(** What the three sidebar widgets return in one run, as functions of what
    the script passes them: the options of the select box; the bounds and
    the default pair of the slider; the default pair and the bounds of the
    date input. *)
Record Widgets : Type := {
  selectbox : list label -> label;
  slider : float -> float -> float * float -> float * float;
  date_input : date * date -> date -> date -> date_input_value
}.

(** The widgets nobody touched: the first option (none when there is no
    option) and the default values. *)
Definition untouched : Widgets :=
  {| selectbox := fun options => hd None options;
     slider := fun _ _ value => value;
     date_input := fun value _ _ => DateTuple [fst value; snd value] |}.

(** [narrowresult_df["CharacteristicName"].unique()]. *)
Definition contaminants (narrowresult_df : list row) : list label :=
  unique (map CharacteristicName narrowresult_df).

(** [narrowresult_df[narrowresult_df["CharacteristicName"] == selected]]. *)
Definition filtered_initial (narrowresult_df : list row)
  (selected_contaminant : label) : list row :=
  filter (fun r => eq_value (CharacteristicName r) selected_contaminant)
         narrowresult_df.

(** The bounds handed to the range widgets. *)
Record bounds_t : Type := {
  min_value : float;
  max_value : float;
  min_date : date;
  max_date : date
}.

(** Lines 55-69: nothing when [filtered_initial.empty], else the minimum
    and maximum of the value column, and the dates of the earliest and the
    latest timestamp. *)
Definition bounds_of (filtered_initial : list row) : option bounds_t :=
  match map ActivityStartDate filtered_initial with
  | [] => None
  | t :: ts =>
      let values := map ResultMeasureValue filtered_initial in
      Some {| min_value := series_min values;
              max_value := series_max values;
              min_date := dt_date (fold_left Z.min ts t);
              max_date := dt_date (fold_left Z.max ts t) |}
  end.

Definition bounds (narrowresult_df : list row) (characteristic : label)
  : option bounds_t :=
  bounds_of (filtered_initial narrowresult_df characteristic).

(** Lines 74-78: a tuple of exactly two dates is the range, anything else
    falls back to the bounds. *)
Definition start_end (date_range : date_input_value) (min_date max_date : date)
  : date * date :=
  match date_range with
  | DateTuple [start_date; end_date] => (start_date, end_date)
  | _ => (min_date, max_date)
  end.

(** Lines 81-87: the row mask. *)
Definition mask (selected_contaminant : label)
  (measurement_range : float * float) (start_date end_date : date)
  (r : row) : bool :=
  eq_value (CharacteristicName r) selected_contaminant
  && geb (ResultMeasureValue r) (fst measurement_range)
  && leb (ResultMeasureValue r) (snd measurement_range)
  && Z.leb start_date (dt_date (ActivityStartDate r))
  && Z.leb (dt_date (ActivityStartDate r)) end_date.

(** Line 88: [narrowresult_df[mask]]. *)
Definition filtered_df (narrowresult_df : list row)
  (selected_contaminant : label) (measurement_range : float * float)
  (date_range : date * date) : list row :=
  filter (mask selected_contaminant measurement_range
               (fst date_range) (snd date_range))
         narrowresult_df.

(** ** Station resolver (lines 94-99) *)

Definition station_names (filtered : list row) : list label :=
  unique (map MonitoringLocationIdentifier filtered).

(** Both coordinate columns through [pd.to_numeric(..., errors='coerce')]. *)
Definition locate `{Parsers} (r : Station.row) : Station.located :=
  {| Station.identifier := Station.MonitoringLocationIdentifier r;
     Station.latitude := to_numeric (Station.LatitudeMeasure r);
     Station.longitude := to_numeric (Station.LongitudeMeasure r) |}.

Definition has_coordinates (r : Station.located) : bool :=
  notna (Station.latitude r) && notna (Station.longitude r).

Definition filtered_stations `{Parsers} (station_df : list Station.row)
  (filtered : list row) : list Station.located :=
  filter has_coordinates
    (map locate
       (filter (fun r => isin (Station.MonitoringLocationIdentifier r)
                              (station_names filtered))
               station_df)).

(** ** Map renderer (lines 102-116) *)

Record marker : Type := {
  location : float * float;
  popup : label
}.

Record folium_map : Type := {
  center : float * float;
  markers : list marker
}.

Definition marker_of (r : Station.located) : marker :=
  {| location := (Station.latitude r, Station.longitude r);
     popup := Station.identifier r |}.

Definition m_filtered (stations : list Station.located) : folium_map :=
  {| center := (mean (map Station.latitude stations),
                mean (map Station.longitude stations));
     markers := map marker_of stations |}.

(** ** Trend renderer (lines 118-133) *)

(** One [ax.plot] call: the two columns of a sorted group and its label. *)
Record line : Type := {
  xdata : list timestamp;
  ydata : list float;
  line_label : string
}.

(** The group keys of [groupby]: the distinct identifiers that are present
    (missing keys are dropped), in increasing order. *)
Fixpoint present (l : list label) : list string :=
  match l with
  | [] => []
  | Some s :: l' => s :: present l'
  | None :: l' => present l'
  end.

Fixpoint insert_key (k : string) (l : list string) : list string :=
  match l with
  | [] => [k]
  | x :: l' => if String.leb k x then k :: l else x :: insert_key k l'
  end.

Definition sort_keys (l : list string) : list string :=
  fold_right insert_key [] l.

Definition group_keys (df : list row) : list string :=
  sort_keys (present (unique (map MonitoringLocationIdentifier df))).

Definition get_group (df : list row) (site : string) : list row :=
  filter (fun r => eq_value (MonitoringLocationIdentifier r) (Some site)) df.

Definition groupby (df : list row) : list (string * list row) :=
  map (fun site => (site, get_group df site)) (group_keys df).

(** [group.sort_values("ActivityStartDate")]: ascending by timestamp.  Rows
    with the same timestamp are left in their order here; pandas does not
    promise an order among them, and nothing below depends on one. *)
Fixpoint insert_row (r : row) (l : list row) : list row :=
  match l with
  | [] => [r]
  | x :: l' =>
      if Z.leb (ActivityStartDate r) (ActivityStartDate x) then r :: l
      else x :: insert_row r l'
  end.

Definition sort_values (group : list row) : list row :=
  fold_right insert_row [] group.

Definition plot_group (g : string * list row) : line :=
  let group_sorted := sort_values (snd g) in
  {| xdata := map ActivityStartDate group_sorted;
     ydata := map ResultMeasureValue group_sorted;
     line_label := fst g |}.

Definition trend (filtered : list row) : list line :=
  map plot_group (groupby filtered).

(** ** The script *)

(** What one run puts on the page, in order. *)
Inductive element : Type :=
| st_title (body : string)
| st_write (body : string)
| st_header (body : string)
| st_file_uploader (body : string)
| st_info (body : string)
| st_selectbox (body : string) (options : list label)
| st_error (body : string)
| st_slider (body : string) (lo hi : float) (value : float * float)
| st_date_input (body : string) (value : date * date) (lo hi : date)
| st_subheader (body : string)
| st_total_records (n : nat)
| st_folium (m : folium_map)
| st_pyplot (title : label) (lines : list line).

(** Lines 101-116. *)
Definition map_section (stations : list Station.located) : list element :=
  st_subheader "Map of Stations (Based on Selected Characteristic)"
  :: match stations with
     | [] => [st_write
                "No stations found with the selected criteria for this characteristic."]
     | _ :: _ => [st_folium (m_filtered stations)]
     end.

(** Lines 118-133. *)
Definition trend_section (selected_contaminant : label) (filtered : list row)
  : list element :=
  [st_subheader "Trend Over Time";
   st_pyplot selected_contaminant (trend filtered)].

(** Lines 61-78: what the slider and the date input answer when they are
    given the bounds, with the bounds as default values. *)
Definition measurement_range (w : Widgets) (b : bounds_t) : float * float :=
  slider w (min_value b) (max_value b) (min_value b, max_value b).

Definition date_range (w : Widgets) (b : bounds_t) : date_input_value :=
  date_input w (min_date b, max_date b) (min_date b) (max_date b).

(** Lines 74-88: the filtered table of the run. *)
Definition selection (w : Widgets) (narrowresult_df : list row)
  (selected_contaminant : label) (b : bounds_t) : list row :=
  filtered_df narrowresult_df selected_contaminant (measurement_range w b)
              (start_end (date_range w b) (min_date b) (max_date b)).

(** Lines 58-133, the branch taken when some record has the contaminant. *)
Definition dashboard `{Parsers} (w : Widgets)
  (station_df : list Station.row) (narrowresult_df : list row)
  (selected_contaminant : label) (b : bounds_t) : list element :=
  let filtered := selection w narrowresult_df selected_contaminant b in
  [st_slider "Select Measurement Value Range"
             (min_value b) (max_value b) (min_value b, max_value b);
   st_date_input "Select Date Range"
                 (min_date b, max_date b) (min_date b) (max_date b);
   st_subheader "Filtered Data Overview";
   st_total_records (List.length filtered)]
  ++ map_section (filtered_stations station_df filtered)
  ++ trend_section selected_contaminant filtered.

(** Lines 41-46: each table loaded, then its identifiers cleaned. *)
Definition station_table (station_file : list Station.row)
  : list Station.row :=
  clean_stations (load_station_data station_file).

Definition narrowresult_table `{Parsers} (narrowresult_file : list raw)
  : list row :=
  clean_results (load_narrowresult_data narrowresult_file).

(** Lines 39-133, once both files are there. *)
Definition analysis `{Parsers} (w : Widgets)
  (station_file : list Station.row) (narrowresult_file : list raw)
  : list element :=
  let station_df := station_table station_file in
  let narrowresult_df := narrowresult_table narrowresult_file in
  let options := contaminants narrowresult_df in
  let selected_contaminant := selectbox w options in
  [st_header "Contaminant and Filter Options";
   st_selectbox "Select Contaminant" options]
  ++ match bounds narrowresult_df selected_contaminant with
     | None => [st_error "No records found for the selected contaminant."]
     | Some b =>
         dashboard w station_df narrowresult_df selected_contaminant b
     end.

(** The whole script; an upload that is not there yet is [None]. *)
Definition app `{Parsers} (w : Widgets)
  (station_file : option (list Station.row))
  (narrowresult_file : option (list raw)) : list element :=
  [st_title "Contaminant Analysis and Mapping";
   st_write "Upload the station database and the narrow result database. Then select a contaminant, set the measurement and date ranges, and view the map and trend plot for the selected contaminant.";
   st_header "Upload Databases";
   st_file_uploader "Upload Station Database (CSV)";
   st_file_uploader "Upload Narrow Result Database (CSV)"]
  ++ match station_file, narrowresult_file with
     | Some sf, Some nf => analysis w sf nf
     | _, _ =>
         [st_info
            "Please upload both databases (CSV files) in the sidebar to continue."]
     end.

(** ** What the claims are stated with *)

(** [v] is the least (the greatest) value of the column [l]. *)
Definition least_value (v : float) (l : list float) : Prop :=
  In v l /\ forall x, In x l -> leb v x = true.

Definition greatest_value (v : float) (l : list float) : Prop :=
  In v l /\ forall x, In x l -> leb x v = true.

(** [d] is the earliest (the latest) date of the column [l]. *)
Definition earliest_date (d : date) (l : list date) : Prop :=
  In d l /\ forall x, In x l -> (d <= x)%Z.

Definition latest_date (d : date) (l : list date) : Prop :=
  In d l /\ forall x, In x l -> (x <= d)%Z.

(** No value of the table is NaN. *)
Definition values_notna (df : list row) : Prop :=
  Forall (fun r => notna (ResultMeasureValue r) = true) df.

(** The activity dates of a table. *)
Definition dates_of (df : list row) : list date :=
  map (fun r => dt_date (ActivityStartDate r)) df.

(** A timestamp column in ascending order. *)
Definition ascending (l : list timestamp) : Prop := Sorted Z.le l.

(** The points of a plotted line, and the point a row is plotted as. *)
Definition points (ln : line) : list (timestamp * float) :=
  combine (xdata ln) (ydata ln).

Definition point_of (r : row) : timestamp * float :=
  (ActivityStartDate r, ResultMeasureValue r).

(** ** A small upload

    Station "S1 " at (40, -75) and station "s2" without a latitude; three
    lead records: 5 and 15 at s1, 10 at s2. *)
Module Scenario.

(** The integer a float64 stands for, when it stands for one. *)
Definition integer_of (x : float) : option Z :=
  match x with
  | S754_zero _ => Some 0%Z
  | S754_finite s m e =>
      if Z.leb 0 e then Some (cond_Zopp s (Zpos m * 2 ^ e))%Z
      else if Z.eqb (Zpos m mod 2 ^ (- e)) 0
           then Some (cond_Zopp s (Zpos m / 2 ^ (- e)))%Z
           else None
  | _ => None
  end.

(** The conversions on the columns of this upload, which hold numbers
    wherever they hold anything: a number in a date column counts
    nanoseconds; the only texts are no numbers and no dates. *)
#[export] Instance parsers : Parsers :=
  {| numeric_of_text := fun _ => nan;
     datetime_of_number := integer_of;
     datetime_of_text := fun _ => None |}.

(** Midnight of the given day, as a cell of a numeric column. *)
Definition day (d : Z) : cell := Num (of_Z (d * ns_per_day)).

Definition d2020_01_01 : date := 18262%Z.
Definition d2020_03_01 : date := 18322%Z.
Definition d2020_06_01 : date := 18414%Z.
Definition d2020_12_31 : date := 18627%Z.

Definition station_file : list Station.row :=
  [ {| Station.MonitoringLocationIdentifier := Some "S1 ";
       Station.LatitudeMeasure := Num (of_Z 40);
       Station.LongitudeMeasure := Num (of_Z (-75)) |};
    {| Station.MonitoringLocationIdentifier := Some "s2";
       Station.LatitudeMeasure := Missing;
       Station.LongitudeMeasure := Num (of_Z (-76)) |} ]%string.

Definition narrowresult_file : list raw :=
  [ {| raw_identifier := Some "s1"; raw_characteristic := Some "Lead";
       raw_date := day d2020_01_01; raw_value := Num (of_Z 5) |};
    {| raw_identifier := Some "s1"; raw_characteristic := Some "Lead";
       raw_date := day d2020_06_01; raw_value := Num (of_Z 15) |};
    {| raw_identifier := Some "s2"; raw_characteristic := Some "Lead";
       raw_date := day d2020_03_01; raw_value := Num (of_Z 10) |} ]%string.

(** The loaded and cleaned result table. *)
Definition narrowresult_df : list row :=
  narrowresult_table narrowresult_file.

Definition station_df : list Station.row := station_table station_file.

(** A station whose latitude is text that is no number. *)
Definition unsurveyed : Station.row :=
  {| Station.MonitoringLocationIdentifier := Some "s3";
     Station.LatitudeMeasure := Text "unknown";
     Station.LongitudeMeasure := Num (of_Z (-76)) |}%string.

(** A record with a date and a value but no characteristic name. *)
Definition unnamed : raw :=
  {| raw_identifier := Some "s1"; raw_characteristic := None;
     raw_date := day d2020_01_01; raw_value := Num (of_Z 5) |}%string.

End Scenario.

(** ** What the further properties are stated with *)

(** The range tests of the mask alone (lines 83-86). *)
Definition in_ranges (measurement_range : float * float)
  (start_date end_date : date) (r : row) : bool :=
  geb (ResultMeasureValue r) (fst measurement_range)
  && leb (ResultMeasureValue r) (snd measurement_range)
  && Z.leb start_date (dt_date (ActivityStartDate r))
  && Z.leb (dt_date (ActivityStartDate r)) end_date.

(** The row names a station. *)
Definition has_identifier (r : row) : bool :=
  match MonitoringLocationIdentifier r with
  | Some _ => true
  | None => false
  end.

(** The row names one of the stations [keys]. *)
Definition key_in (keys : list string) (r : row) : bool :=
  match MonitoringLocationIdentifier r with
  | Some s => existsb (String.eqb s) keys
  | None => false
  end.

(** Labels in increasing order. *)
Definition increasing (l : list string) : Prop :=
  Sorted (fun a b => String.leb a b = true) l.

(** The number of points of a plot. *)
Definition count_points (lines : list line) : nat :=
  list_sum (map (fun ln => List.length (xdata ln)) lines).

(** Lines 27-37: what every run shows first. *)
Definition preamble : list element :=
  [st_title "Contaminant Analysis and Mapping";
   st_write "Upload the station database and the narrow result database. Then select a contaminant, set the measurement and date ranges, and view the map and trend plot for the selected contaminant.";
   st_header "Upload Databases";
   st_file_uploader "Upload Station Database (CSV)";
   st_file_uploader "Upload Narrow Result Database (CSV)"].

(** ** More of the small upload *)
Module Visit.

(** A visitor who leaves the first contaminant and the whole value range,
    and picks the two days after the first record as the date range. *)
Definition two_quiet_days : Widgets :=
  {| selectbox := fun options => hd None options;
     slider := fun _ _ value => value;
     date_input := fun value _ _ =>
                     DateTuple [fst value + 1; fst value + 2]%Z |}.

(** A record whose date cell is empty. *)
Definition undated : raw :=
  {| raw_identifier := Some "s1"; raw_characteristic := Some "Lead";
     raw_date := Missing; raw_value := Num (of_Z 5) |}%string.

(** The first station of the upload as loaded, and the first record as
    loaded, before cleaning. *)
Definition first_station : Station.row :=
  {| Station.MonitoringLocationIdentifier := Some "S1 ";
     Station.LatitudeMeasure := Num (of_Z 40);
     Station.LongitudeMeasure := Num (of_Z (-75)) |}%string.

Definition first_record : row :=
  {| MonitoringLocationIdentifier := Some "s1";
     CharacteristicName := Some "Lead";
     ActivityStartDate := (Scenario.d2020_01_01 * ns_per_day)%Z;
     ResultMeasureValue := of_Z 5 |}%string.

(** The bounds of lead in the upload. *)
Definition lead_bounds : bounds_t :=
  {| min_value := of_Z 5; max_value := of_Z 15;
     min_date := Scenario.d2020_01_01; max_date := Scenario.d2020_06_01 |}.

End Visit.

(* ================================================================== *)
(** * Part II: lemmas and theorems *)
(* ================================================================== *)

(** ** The order of float64 values that are not NaN *)
Module Float64Facts.

Ltac cmp_cases :=
  repeat match goal with
    | |- context [Z.compare ?a ?b] =>
        destruct (Z.compare_spec a b); subst; simpl
    | H : context [Z.compare ?a ?b] |- _ =>
        destruct (Z.compare_spec a b); subst; simpl in H
    | |- context [Pos.compare_cont Eq ?a ?b] =>
        change (Pos.compare_cont Eq a b) with (Pos.compare a b);
        destruct (Pos.compare_spec a b); subst; simpl
    | H : context [Pos.compare_cont Eq ?a ?b] |- _ =>
        change (Pos.compare_cont Eq a b) with (Pos.compare a b) in H;
        destruct (Pos.compare_spec a b); subst; simpl in H
    end.

Lemma leb_notna_l x y : leb x y = true -> notna x = true.
Proof. destruct x; simpl; auto; discriminate. Qed.

Lemma leb_notna_r x y : leb x y = true -> notna y = true.
Proof. destruct x, y; simpl; auto; discriminate. Qed.

Lemma leb_refl x : notna x = true -> leb x x = true.
Proof.
  unfold leb, SFleb, SFcompare.
  destruct x as [s|s| |s m e]; try destruct s; simpl; try reflexivity;
    try discriminate; intros _;
    rewrite Z.compare_refl, Pos.compare_cont_refl; reflexivity.
Qed.

Lemma ltb_false_leb x y :
  notna x = true -> notna y = true -> ltb y x = false -> leb x y = true.
Proof.
  unfold ltb, leb, SFltb, SFleb, SFcompare.
  destruct x as [s|s| |s m e], y as [s'|s'| |s' m' e'];
    try destruct s; try destruct s'; simpl; intros; try reflexivity;
    try discriminate; cmp_cases; try reflexivity; try discriminate; try lia.
Qed.

Lemma ltb_leb x y : ltb x y = true -> leb x y = true.
Proof.
  unfold ltb, leb, SFltb, SFleb.
  destruct (SFcompare x y) as [[]|]; auto.
Qed.

Lemma leb_trans x y z : leb x y = true -> leb y z = true -> leb x z = true.
Proof.
  unfold leb, SFleb, SFcompare.
  destruct x as [s|s| |s m e], y as [s'|s'| |s' m' e'],
           z as [s''|s''| |s'' m'' e''];
    try destruct s; try destruct s'; try destruct s''; simpl;
    intros H1 H2; try reflexivity; try discriminate;
    cmp_cases; try reflexivity; try discriminate; try lia.
Qed.

End Float64Facts.

(** ** [strip] and [lower] *)
Module StrFacts.
Import Str.

Local Open Scope string_scope.

Ltac each_char c :=
  destruct c as [[] [] [] [] [] [] [] []]; reflexivity.

Lemma isspace_lower_char c : isspace (lower_char c) = isspace c.
Proof. each_char c. Qed.


















Lemma all_space_lower s : all_space (lower s) = all_space s.
Proof.
  induction s as [|c s IH]; simpl; [reflexivity|].
  now rewrite isspace_lower_char, IH.
Qed.




End StrFacts.

(** ** Columns: [unique], [isin], minimum and maximum *)
Module ColumnFacts.
Import Float64Facts.

Lemma label_eqb_eq a b : label_eqb a b = true <-> a = b.
Proof.
  destruct a as [x|], b as [y|]; simpl; try (split; congruence).
  rewrite String.eqb_eq. split; congruence.
Qed.

Lemma eq_value_Some a (s : string) : eq_value a (Some s) = true <-> a = Some s.
Proof.
  destruct a as [x|]; simpl; [|split; congruence].
  rewrite String.eqb_eq. split; congruence.
Qed.

Lemma eq_value_None a : eq_value a None = false.
Proof. destruct a; reflexivity. Qed.

Lemma isin_In a values : isin a values = true <-> In a values.
Proof.
  unfold isin. rewrite existsb_exists. split.
  - intros (b & Hb & E). apply label_eqb_eq in E. now subst.
  - intros Ha. exists a. split; [exact Ha | now apply label_eqb_eq].
Qed.

Lemma isin_false a values : isin a values = false <-> ~ In a values.
Proof.
  rewrite <- isin_In. destruct (isin a values); split; congruence.
Qed.

Lemma unique_acc_In seen l a :
  In a (unique_acc seen l) <-> In a l /\ ~ In a seen.
Proof.
  revert seen. induction l as [|b l IH]; intros seen; simpl.
  - tauto.
  - destruct (isin b seen) eqn:E.
    + apply isin_In in E. rewrite IH. split.
      * tauto.
      * intros [[->|Ha] Hn]; tauto.
    + apply isin_false in E. simpl. rewrite IH. simpl. split.
      * intros [->|[Ha Hn]]; tauto.
      * intros [[->|Ha] Hn]; [tauto|].
        destruct (label_eqb b a) eqn:Eb.
        -- apply label_eqb_eq in Eb. tauto.
        -- right. split; [exact Ha|]. intros [->|Hs]; [|tauto].
           assert (label_eqb a a = true) by now apply label_eqb_eq.
           congruence.
Qed.

Lemma unique_In l a : In a (unique l) <-> In a l.
Proof. unfold unique. rewrite unique_acc_In. simpl. tauto. Qed.

Lemma unique_acc_NoDup seen l : NoDup (unique_acc seen l).
Proof.
  revert seen. induction l as [|b l IH]; intros seen; simpl.
  - constructor.
  - destruct (isin b seen); [apply IH|].
    constructor; [|apply IH].
    rewrite unique_acc_In. simpl. tauto.
Qed.

Lemma unique_NoDup l : NoDup (unique l).
Proof. apply unique_acc_NoDup. Qed.

Lemma present_In l s : In s (present l) <-> In (Some s) l.
Proof.
  induction l as [|[x|] l IH]; simpl.
  - tauto.
  - rewrite IH. split; intros [E|Hl]; auto; left; congruence.
  - rewrite IH. split; [auto|]. intros [E|Hl]; [discriminate | exact Hl].
Qed.

Lemma present_NoDup l : NoDup l -> NoDup (present l).
Proof.
  induction 1 as [|[x|] l Hn Hd IH]; simpl.
  - constructor.
  - constructor; [now rewrite present_In | exact IH].
  - exact IH.
Qed.

(** The running minimum is one of the values and below all of them. *)
Lemma fold_fmin_In xs x : In (fold_left fmin xs x) (x :: xs).
Proof.
  revert x. induction xs as [|y xs IH]; intros x; simpl.
  - now left.
  - destruct (IH (fmin x y)) as [E|Hin]; [|now right; right].
    rewrite <- E. unfold fmin. destruct (ltb y x); simpl; auto.
Qed.

Lemma fold_fmax_In xs x : In (fold_left fmax xs x) (x :: xs).
Proof.
  revert x. induction xs as [|y xs IH]; intros x; simpl.
  - now left.
  - destruct (IH (fmax x y)) as [E|Hin]; [|now right; right].
    rewrite <- E. unfold fmax. destruct (ltb x y); simpl; auto.
Qed.

Lemma fmin_notna x y : notna x = true -> notna y = true -> notna (fmin x y) = true.
Proof. unfold fmin. now destruct (ltb y x). Qed.

Lemma fmax_notna x y : notna x = true -> notna y = true -> notna (fmax x y) = true.
Proof. unfold fmax. now destruct (ltb x y). Qed.

Lemma fmin_le x y :
  notna x = true -> notna y = true ->
  leb (fmin x y) x = true /\ leb (fmin x y) y = true.
Proof.
  intros Hx Hy. unfold fmin. destruct (ltb y x) eqn:E.
  - split; [now apply ltb_leb | now apply leb_refl].
  - split; [now apply leb_refl | now apply ltb_false_leb].
Qed.

Lemma fmax_ge x y :
  notna x = true -> notna y = true ->
  leb x (fmax x y) = true /\ leb y (fmax x y) = true.
Proof.
  intros Hx Hy. unfold fmax. destruct (ltb x y) eqn:E.
  - split; [now apply ltb_leb | now apply leb_refl].
  - split; [now apply leb_refl | now apply ltb_false_leb].
Qed.

Lemma fold_fmin_le xs x :
  notna x = true -> Forall (fun y => notna y = true) xs ->
  forall y, In y (x :: xs) -> leb (fold_left fmin xs x) y = true.
Proof.
  revert x. induction xs as [|z xs IH]; intros x Hx Hxs y Hy; simpl.
  - destruct Hy as [<-|[]]. now apply leb_refl.
  - inversion Hxs as [|? ? Hz Hxs']; subst.
    destruct (fmin_le x z Hx Hz) as [L1 L2].
    assert (Hm : notna (fmin x z) = true) by now apply fmin_notna.
    destruct Hy as [<-|[<-|Hy]].
    + eapply leb_trans; [|exact L1]. apply IH; auto. now left.
    + eapply leb_trans; [|exact L2]. apply IH; auto. now left.
    + apply IH; auto. now right.
Qed.

Lemma fold_fmax_ge xs x :
  notna x = true -> Forall (fun y => notna y = true) xs ->
  forall y, In y (x :: xs) -> leb y (fold_left fmax xs x) = true.
Proof.
  revert x. induction xs as [|z xs IH]; intros x Hx Hxs y Hy; simpl.
  - destruct Hy as [<-|[]]. now apply leb_refl.
  - inversion Hxs as [|? ? Hz Hxs']; subst.
    destruct (fmax_ge x z Hx Hz) as [L1 L2].
    assert (Hm : notna (fmax x z) = true) by now apply fmax_notna.
    destruct Hy as [<-|[<-|Hy]].
    + eapply leb_trans; [exact L1|]. apply IH; auto. now left.
    + eapply leb_trans; [exact L2|]. apply IH; auto. now left.
    + apply IH; auto. now right.
Qed.

Lemma filter_all {A} (f : A -> bool) l :
  Forall (fun x => f x = true) l -> filter f l = l.
Proof.
  induction 1 as [|x l Hx Hl IH]; simpl; [reflexivity|].
  now rewrite Hx, IH.
Qed.

(** On a column without NaN that is not empty, [min()] and [max()] are
    the least and the greatest value. *)
Lemma series_min_least l :
  l <> [] -> Forall (fun x => notna x = true) l ->
  least_value (series_min l) l.
Proof.
  intros Hne Hl. unfold series_min. rewrite (filter_all _ _ Hl).
  destruct l as [|x xs]; [congruence|].
  inversion Hl; subst. split.
  - apply fold_fmin_In.
  - now apply fold_fmin_le.
Qed.

Lemma series_max_greatest l :
  l <> [] -> Forall (fun x => notna x = true) l ->
  greatest_value (series_max l) l.
Proof.
  intros Hne Hl. unfold series_max. rewrite (filter_all _ _ Hl).
  destruct l as [|x xs]; [congruence|].
  inversion Hl; subst. split.
  - apply fold_fmax_In.
  - now apply fold_fmax_ge.
Qed.

(** The earliest and the latest timestamp, and their dates. *)
Lemma fold_Zmin_In ts t : In (fold_left Z.min ts t) (t :: ts).
Proof.
  revert t. induction ts as [|u ts IH]; intros t; simpl.
  - now left.
  - destruct (IH (Z.min t u)) as [E|Hin]; [|now right; right].
    rewrite <- E. destruct (Z.min_spec t u) as [[_ ->]|[_ ->]]; auto.
Qed.

Lemma fold_Zmax_In ts t : In (fold_left Z.max ts t) (t :: ts).
Proof.
  revert t. induction ts as [|u ts IH]; intros t; simpl.
  - now left.
  - destruct (IH (Z.max t u)) as [E|Hin]; [|now right; right].
    rewrite <- E. destruct (Z.max_spec t u) as [[_ ->]|[_ ->]]; auto.
Qed.

Lemma fold_Zmin_le ts t x : In x (t :: ts) -> (fold_left Z.min ts t <= x)%Z.
Proof.
  revert t x. induction ts as [|u ts IH]; intros t x Hx; simpl.
  - destruct Hx as [<-|[]]. lia.
  - pose proof (IH (Z.min t u) _ (or_introl eq_refl)) as Hm.
    destruct Hx as [<-|[<-|Hx]]; [lia | lia |].
    apply IH. now right.
Qed.

Lemma fold_Zmax_ge ts t x : In x (t :: ts) -> (x <= fold_left Z.max ts t)%Z.
Proof.
  revert t x. induction ts as [|u ts IH]; intros t x Hx; simpl.
  - destruct Hx as [<-|[]]. lia.
  - pose proof (IH (Z.max t u) _ (or_introl eq_refl)) as Hm.
    destruct Hx as [<-|[<-|Hx]]; [lia | lia |].
    apply IH. now right.
Qed.

Lemma dt_date_mono t u : (t <= u)%Z -> (dt_date t <= dt_date u)%Z.
Proof.
  intros Htu. unfold dt_date, ns_per_day.
  apply Z.div_le_mono; [lia | exact Htu].
Qed.

(** The date of midnight plus a time of day is the day. *)
Lemma dt_date_time_of_day (d k : Z) :
  dt_date (d * ns_per_day + k mod ns_per_day)%Z = d.
Proof.
  unfold dt_date.
  assert (Hn : (0 < ns_per_day)%Z) by reflexivity.
  rewrite Z.add_comm, Z.div_add by lia.
  rewrite Z.div_small; [lia|]. now apply Z.mod_pos_bound.
Qed.

End ColumnFacts.

(** ** Loading and the filter engine *)
Section Engine.
Import Float64Facts ColumnFacts.
Context {P : Parsers}.

Lemma dropna_row_notna c r :
  dropna_row c = Some r -> notna (ResultMeasureValue r) = true.
Proof.
  unfold dropna_row. destruct (conv_date c); [|discriminate].
  destruct (is_nan (conv_value c)) eqn:E; [discriminate|].
  intros [= <-]. simpl. unfold notna. now rewrite E.
Qed.

Lemma dropna_notna l : values_notna (dropna l).
Proof.
  induction l as [|c l IH]; simpl; [constructor|].
  destruct (dropna_row c) as [r|] eqn:E; [|exact IH].
  constructor; [now apply dropna_row_notna in E | exact IH].
Qed.

Lemma clean_results_notna df : values_notna df -> values_notna (clean_results df).
Proof.
  induction 1 as [|r df Hr Hdf IH]; simpl; constructor; auto.
Qed.

(** No value of the loaded, cleaned table is NaN. *)
Lemma loaded_notna file : values_notna (narrowresult_table file).
Proof. apply clean_results_notna, dropna_notna. Qed.

Lemma filtered_initial_In df c r :
  In r (filtered_initial df (Some c)) <-> In r df /\ CharacteristicName r = Some c.
Proof. unfold filtered_initial. now rewrite filter_In, eq_value_Some. Qed.

Lemma filtered_initial_missing df : filtered_initial df None = [].
Proof.
  unfold filtered_initial. induction df as [|r df IH]; simpl; [reflexivity|].
  now rewrite eq_value_None.
Qed.

Lemma filtered_initial_notna df c :
  values_notna df -> values_notna (filtered_initial df c).
Proof.
  unfold values_notna, filtered_initial. rewrite !Forall_forall.
  intros H r Hr. apply filter_In in Hr. now apply H.
Qed.


Lemma bounds_None df c : bounds df c = None <-> filtered_initial df c = [].
Proof.
  unfold bounds, bounds_of.
  destruct (filtered_initial df c); simpl; split; congruence.
Qed.

Lemma contaminants_In df c :
  In c (contaminants df) <-> exists r, In r df /\ CharacteristicName r = c.
Proof.
  unfold contaminants. rewrite unique_In, in_map_iff.
  split; intros (r & H1 & H2); exists r; tauto.
Qed.

(** A name among the contaminants has records. *)
Lemma named_contaminant_has_rows df (c : string) :
  In (Some c) (contaminants df) -> filtered_initial df (Some c) <> [].
Proof.
  intros (r & Hr & E)%contaminants_In Hnil.
  assert (Hin : In r (filtered_initial df (Some c)))
    by now apply filtered_initial_In.
  rewrite Hnil in Hin. exact Hin.
Qed.

(** What the bounds are, on a table without NaN. *)
Lemma bounds_of_spec rows b :
  values_notna rows -> bounds_of rows = Some b ->
  least_value (min_value b) (map ResultMeasureValue rows)
  /\ greatest_value (max_value b) (map ResultMeasureValue rows)
  /\ earliest_date (min_date b) (dates_of rows)
  /\ latest_date (max_date b) (dates_of rows).
Proof.
  intros Hn. unfold bounds_of.
  destruct (map ActivityStartDate rows) as [|t ts] eqn:Ets; [discriminate|].
  intros [= <-]. simpl.
  assert (Hne : map ResultMeasureValue rows <> [])
    by (destruct rows; simpl in *; congruence).
  assert (Hv : Forall (fun x => notna x = true) (map ResultMeasureValue rows))
    by (apply Forall_map; exact Hn).
  assert (Hdates : forall u, In u (t :: ts) -> In (dt_date u) (dates_of rows)).
  { intros u Hu. rewrite <- Ets in Hu. apply in_map_iff in Hu.
    destruct Hu as (r & <- & Hr). unfold dates_of.
    apply in_map_iff. now exists r. }
  assert (Hback : forall x, In x (dates_of rows) ->
                    exists u, In u (t :: ts) /\ x = dt_date u).
  { intros x Hx. unfold dates_of in Hx. apply in_map_iff in Hx.
    destruct Hx as (r & <- & Hr). exists (ActivityStartDate r).
    split; [|reflexivity]. rewrite <- Ets. now apply in_map. }
  repeat split.
  - now apply series_min_least.
  - now apply series_min_least.
  - now apply series_max_greatest.
  - now apply series_max_greatest.
  - apply Hdates, fold_Zmin_In.
  - intros x (u & Hu & ->)%Hback. now apply dt_date_mono, fold_Zmin_le.
  - apply Hdates, fold_Zmax_In.
  - intros x (u & Hu & ->)%Hback. now apply dt_date_mono, fold_Zmax_ge.
Qed.

Lemma mask_true c range start_date end_date r :
  mask (Some c) range start_date end_date r = true <->
  CharacteristicName r = Some c
  /\ leb (fst range) (ResultMeasureValue r) = true
  /\ leb (ResultMeasureValue r) (snd range) = true
  /\ (start_date <= dt_date (ActivityStartDate r) <= end_date)%Z.
Proof.
  unfold mask, geb. rewrite !andb_true_iff, eq_value_Some, !Z.leb_le.
  tauto.
Qed.

(** With the bounds as ranges the mask is the characteristic test. *)
Lemma full_range_filter df c b :
  values_notna df -> bounds df c = Some b ->
  filtered_df df c (min_value b, max_value b) (min_date b, max_date b)
  = filtered_initial df c.
Proof.
  intros Hn Hb. unfold filtered_df, filtered_initial.
  apply filter_ext_in. intros r Hr.
  unfold mask. cbn [fst snd]. destruct (eq_value (CharacteristicName r) c) eqn:E;
    [|reflexivity].
  assert (Hin : In r (filtered_initial df c))
    by (apply filter_In; split; assumption).
  destruct (bounds_of_spec _ _ (filtered_initial_notna _ c Hn) Hb)
    as ((_ & Hmin) & (_ & Hmax) & (_ & Hd0) & (_ & Hd1)).
  unfold geb. rewrite andb_true_l.
  rewrite (Hmin _ (in_map ResultMeasureValue _ _ Hin)).
  rewrite (Hmax _ (in_map ResultMeasureValue _ _ Hin)).
  assert (Hd : In (dt_date (ActivityStartDate r))
                  (dates_of (filtered_initial df c)))
    by (unfold dates_of; apply in_map_iff; now exists r).
  apply Hd0 in Hd as H0. apply Hd1 in Hd as H1.
  apply Z.leb_le in H0, H1. now rewrite H0, H1.
Qed.

Lemma dashboard_no_error w station_df df c b body :
  ~ In (st_error body) (dashboard w station_df df c b).
Proof.
  unfold dashboard, map_section, trend_section.
  destruct (filtered_stations station_df (selection w df c b));
    simpl; intros H; repeat destruct H as [H|H]; try discriminate; exact H.
Qed.

(** C1: a row of the measurement table is in the output of the filter
    exactly when its characteristic name is the selected one, its value
    lies between the two ends of the value range, ends included, and its
    activity date lies between the two ends of the date range, ends
    included; the date of a timestamp is its day, whatever the time of
    day. *)
Theorem C1_apply_keeps_exactly_the_matching_rows
  (measurements : list row) (characteristic : string)
  (valueRange : float * float) (dateRange : date * date) (r : row) :
  (In r (filtered_df measurements (Some characteristic) valueRange dateRange)
   <->
   In r measurements
   /\ CharacteristicName r = Some characteristic
   /\ leb (fst valueRange) (ResultMeasureValue r) = true
   /\ leb (ResultMeasureValue r) (snd valueRange) = true
   /\ (fst dateRange <= dt_date (ActivityStartDate r) <= snd dateRange)%Z)
  /\ (forall d k : Z, dt_date (d * ns_per_day + k mod ns_per_day)%Z = d).
Proof.
  split.
  - unfold filtered_df. now rewrite filter_In, mask_true.
  - apply dt_date_time_of_day.
Qed.

(** C2: on a loaded table, for a characteristic that occurs in it, the
    filter with the default ranges (the least and greatest value and the
    earliest and latest date of that characteristic's rows) returns the
    rows of that characteristic, all of them and no other; this is what
    the untouched widgets select. *)
Theorem C2_full_default_range_keeps_the_characteristic
  (file : list raw) (characteristic : string) :
  In (Some characteristic) (contaminants (narrowresult_table file)) ->
  exists b,
    bounds (narrowresult_table file) (Some characteristic) = Some b
    /\ filtered_df (narrowresult_table file) (Some characteristic)
                   (min_value b, max_value b) (min_date b, max_date b)
       = filtered_initial (narrowresult_table file) (Some characteristic)
    /\ selection untouched (narrowresult_table file) (Some characteristic) b
       = filtered_initial (narrowresult_table file) (Some characteristic)
    /\ forall r,
         In r (selection untouched (narrowresult_table file)
                         (Some characteristic) b)
         <-> In r (narrowresult_table file)
             /\ CharacteristicName r = Some characteristic.
Proof.
  intros Hc. apply named_contaminant_has_rows in Hc.
  destruct (bounds (narrowresult_table file) (Some characteristic))
    as [b|] eqn:Hb; [|now apply bounds_None in Hb].
  exists b.
  pose proof (full_range_filter _ _ _ (loaded_notna file) Hb) as Hfull.
  assert (Hsel : selection untouched (narrowresult_table file)
                           (Some characteristic) b
                 = filtered_initial (narrowresult_table file)
                                    (Some characteristic)) by exact Hfull.
  split; [reflexivity|]. split; [exact Hfull|]. split; [exact Hsel|].
  intros r. rewrite Hsel. apply filtered_initial_In.
Qed.


(** C7: when the date input answers one date, alone or in a tuple of
    one, the rows are filtered on the full span from the earliest to the
    latest date of the characteristic; when it answers two dates, on the
    span from the first to the second. *)
Theorem C7_single_date_falls_back_to_the_bounds
  (w : Widgets) (measurements : list row) (characteristic : label)
  (b : bounds_t) :
  (forall d,
     date_range w b = OneDate d \/ date_range w b = DateTuple [d] ->
     start_end (date_range w b) (min_date b) (max_date b)
     = (min_date b, max_date b)
     /\ selection w measurements characteristic b
        = filtered_df measurements characteristic (measurement_range w b)
                      (min_date b, max_date b))
  /\ (forall start_date end_date,
        date_range w b = DateTuple [start_date; end_date] ->
        start_end (date_range w b) (min_date b) (max_date b)
        = (start_date, end_date)
        /\ selection w measurements characteristic b
           = filtered_df measurements characteristic (measurement_range w b)
                         (start_date, end_date)).
Proof.
  unfold selection. split.
  - intros d [E|E]; rewrite E; split; reflexivity.
  - intros s e E. rewrite E. split; reflexivity.
Qed.

(** C10, as the code has it: a characteristic name that occurs in the
    loaded table has rows, so it has bounds, and the run that selected it
    goes through the dashboard branch and shows no error message. *)
Theorem C10_a_named_contaminant_is_never_empty
  (w : Widgets) (station_file : list Station.row) (file : list raw)
  (characteristic : string) :
  In (Some characteristic) (contaminants (narrowresult_table file)) ->
  filtered_initial (narrowresult_table file) (Some characteristic) <> []
  /\ exists b,
       bounds (narrowresult_table file) (Some characteristic) = Some b
       /\ (selectbox w (contaminants (narrowresult_table file))
           = Some characteristic ->
           analysis w station_file file
           = [st_header "Contaminant and Filter Options";
              st_selectbox "Select Contaminant"
                           (contaminants (narrowresult_table file))]
             ++ dashboard w (station_table station_file)
                          (narrowresult_table file) (Some characteristic) b
           /\ forall body,
                ~ In (st_error body) (analysis w station_file file)).
Proof.
  intros Hc. apply named_contaminant_has_rows in Hc as Hne.
  split; [exact Hne|].
  destruct (bounds (narrowresult_table file) (Some characteristic))
    as [b|] eqn:Hb; [|now apply bounds_None in Hb].
  exists b. split; [reflexivity|]. intros Hsel.
  assert (Han : analysis w station_file file
                = [st_header "Contaminant and Filter Options";
                   st_selectbox "Select Contaminant"
                                (contaminants (narrowresult_table file))]
                  ++ dashboard w (station_table station_file)
                       (narrowresult_table file) (Some characteristic) b)
    by (unfold analysis; now rewrite Hsel, Hb).
  split; [exact Han|].
  intros body. rewrite Han. simpl.
  intros [H|[H|H]]; try discriminate.
  now apply dashboard_no_error in H.
Qed.

End Engine.

(** ** Data cleaning *)
Section Cleaning.
Import StrFacts.






End Cleaning.

(** ** Stations: loading, resolution and the map *)
Section Stations.
Import ColumnFacts.
Context {P : Parsers}.

Lemma load_station_data_In file r :
  In r (load_station_data file) <->
  In r file
  /\ isna (Station.LatitudeMeasure r) = false
  /\ isna (Station.LongitudeMeasure r) = false.
Proof.
  unfold load_station_data.
  rewrite filter_In, andb_true_iff, !negb_true_iff. tauto.
Qed.

Lemma station_table_In file r :
  In r (station_table file) <->
  exists r0, In r0 (load_station_data file) /\ r = clean_station r0.
Proof.
  unfold station_table, clean_stations. rewrite in_map_iff.
  split; intros (r0 & H1 & H2); exists r0; auto.
Qed.

Lemma filtered_stations_In stations filtered r :
  In r (filtered_stations stations filtered) <->
  exists s,
    In s stations
    /\ In (Station.MonitoringLocationIdentifier s)
          (map MonitoringLocationIdentifier filtered)
    /\ notna (to_numeric (Station.LatitudeMeasure s)) = true
    /\ notna (to_numeric (Station.LongitudeMeasure s)) = true
    /\ r = locate s.
Proof.
  unfold filtered_stations, station_names.
  rewrite filter_In, in_map_iff. unfold has_coordinates.
  rewrite andb_true_iff. split.
  - intros ((s & <- & Hs) & Hlat & Hlon).
    apply filter_In in Hs. destruct Hs as (Hs & Hin).
    rewrite isin_In, unique_In in Hin. exists s.
    split; [exact Hs|]. split; [exact Hin|]. split; [exact Hlat|].
    split; [exact Hlon | reflexivity].
  - intros (s & Hs & Hin & Hlat & Hlon & ->). split; [|split; assumption].
    exists s. split; [reflexivity|]. apply filter_In. split; [exact Hs|].
    now rewrite isin_In, unique_In.
Qed.

Lemma filtered_stations_located stations filtered :
  Forall (fun r => has_coordinates r = true)
         (filtered_stations stations filtered).
Proof.
  apply Forall_forall. intros r Hr. unfold filtered_stations in Hr.
  now apply filter_In in Hr.
Qed.



(** C5: the resolved stations are the rows of the station table whose
    identifier is the identifier of some filtered measurement and whose
    latitude and longitude both convert to a number, with the converted
    coordinates; a row with a coordinate that does not convert is left
    out even when a filtered measurement names it; and on no resolved
    station the map section is the message, with no map. *)
Theorem C5_resolved_stations
  (stations : list Station.row) (filtered : list row) (r : Station.located) :
  (In r (filtered_stations stations filtered) <->
   exists s,
     In s stations
     /\ In (Station.MonitoringLocationIdentifier s)
           (map MonitoringLocationIdentifier filtered)
     /\ notna (to_numeric (Station.LatitudeMeasure s)) = true
     /\ notna (to_numeric (Station.LongitudeMeasure s)) = true
     /\ r = locate s)
  /\ (forall s,
        is_nan (to_numeric (Station.LatitudeMeasure s)) = true
        \/ is_nan (to_numeric (Station.LongitudeMeasure s)) = true ->
        ~ In (locate s) (filtered_stations stations filtered))
  /\ (filtered_stations stations filtered = [] ->
      map_section (filtered_stations stations filtered)
      = [st_subheader "Map of Stations (Based on Selected Characteristic)";
         st_write
           "No stations found with the selected criteria for this characteristic."]).
Proof.
  split; [apply filtered_stations_In|]. split.
  - intros s Hnan Hin.
    pose proof (filtered_stations_located stations filtered) as Hall.
    rewrite Forall_forall in Hall. apply Hall in Hin.
    unfold has_coordinates, notna in Hin. cbn [locate Station.latitude Station.longitude] in Hin.
    apply andb_true_iff in Hin. rewrite !negb_true_iff in Hin.
    destruct Hin as [H1 H2]. destruct Hnan; congruence.
  - intros ->. reflexivity.
Qed.

(** C6, as the code has it: the loaded station table is the file without
    the rows whose latitude or longitude is missing, so every row of it,
    also after cleaning, has both coordinates present; a coordinate that
    is present may still be text. *)
Theorem C6_loaded_stations_have_coordinates
  (file : list Station.row) (r : Station.row) :
  (In r (load_station_data file) <->
   In r file
   /\ isna (Station.LatitudeMeasure r) = false
   /\ isna (Station.LongitudeMeasure r) = false)
  /\ (In r (station_table file) ->
      isna (Station.LatitudeMeasure r) = false
      /\ isna (Station.LongitudeMeasure r) = false).
Proof.
  split; [apply load_station_data_In|].
  intros (r0 & Hr0 & ->)%station_table_In.
  apply load_station_data_In in Hr0. simpl. tauto.
Qed.


End Stations.

(** ** The trend plot *)
Section Trend.
Import ColumnFacts.

Lemma insert_key_perm k l : Permutation (insert_key k l) (k :: l).
Proof.
  induction l as [|x l IH]; simpl; [reflexivity|].
  destruct (String.leb k x); [reflexivity|].
  rewrite IH. apply perm_swap.
Qed.

Lemma sort_keys_perm l : Permutation (sort_keys l) l.
Proof.
  induction l as [|k l IH]; simpl; [reflexivity|].
  rewrite insert_key_perm. now constructor.
Qed.

Lemma group_keys_In df site :
  In site (group_keys df) <-> In (Some site) (map MonitoringLocationIdentifier df).
Proof.
  unfold group_keys. rewrite <- unique_In, <- present_In.
  split; apply Permutation_in;
    [apply sort_keys_perm | symmetry; apply sort_keys_perm].
Qed.

Lemma group_keys_NoDup df : NoDup (group_keys df).
Proof.
  unfold group_keys.
  eapply Permutation_NoDup; [symmetry; apply sort_keys_perm|].
  apply present_NoDup, unique_NoDup.
Qed.

Lemma insert_row_perm r l : Permutation (insert_row r l) (r :: l).
Proof.
  induction l as [|x l IH]; simpl; [reflexivity|].
  destruct (Z.leb (ActivityStartDate r) (ActivityStartDate x));
    [reflexivity|].
  rewrite IH. apply perm_swap.
Qed.

Lemma sort_values_perm group : Permutation (sort_values group) group.
Proof.
  induction group as [|r l IH]; simpl; [reflexivity|].
  rewrite insert_row_perm. now constructor.
Qed.

Lemma insert_row_ascending r l :
  ascending (map ActivityStartDate l) ->
  ascending (map ActivityStartDate (insert_row r l)).
Proof.
  unfold ascending. induction l as [|x l IH]; simpl; intros Hs.
  - repeat constructor.
  - destruct (Z.leb (ActivityStartDate r) (ActivityStartDate x)) eqn:E.
    + simpl. constructor; [exact Hs|]. constructor. now apply Z.leb_le.
    + apply Z.leb_gt in E. inversion Hs as [|? ? Hl Hh]; subst.
      simpl. constructor; [now apply IH|].
      destruct l as [|y l']; simpl.
      * constructor. lia.
      * destruct (Z.leb (ActivityStartDate r) (ActivityStartDate y));
          simpl; constructor; [lia|]. now inversion Hh.
Qed.

Lemma sort_values_ascending group :
  ascending (map ActivityStartDate (sort_values group)).
Proof.
  induction group as [|r l IH]; simpl.
  - constructor.
  - now apply insert_row_ascending.
Qed.

Lemma trend_labels df : map line_label (trend df) = group_keys df.
Proof.
  unfold trend, groupby. rewrite !map_map. simpl. apply map_id.
Qed.

Lemma trend_In df ln :
  In ln (trend df) <->
  exists site, In site (group_keys df)
               /\ ln = plot_group (site, get_group df site).
Proof.
  unfold trend, groupby. rewrite map_map, in_map_iff.
  split; intros (site & H1 & H2); exists site; auto.
Qed.

Lemma points_plot_group g :
  points (plot_group g) = map point_of (sort_values (snd g)).
Proof.
  unfold points, plot_group. simpl.
  induction (sort_values (snd g)) as [|r l IH]; simpl; [reflexivity|].
  now rewrite IH.
Qed.

Lemma get_group_In df site r :
  In r (get_group df site) <->
  In r df /\ MonitoringLocationIdentifier r = Some site.
Proof. unfold get_group. now rewrite filter_In, eq_value_Some. Qed.

(** C9: the plot has one line per station identifier of the filtered
    table, each identifier once; the line of a station carries the rows
    of that station, all of them, in ascending order of their timestamps;
    so every filtered row with an identifier is a point of its station's
    line; and the plot of a run is drawn from the filtered table alone,
    whatever the station table holds. *)
Theorem C9_trend_has_a_sorted_line_per_station (filtered : list row) :
  NoDup (map line_label (trend filtered))
  /\ (forall site,
        In site (map line_label (trend filtered))
        <-> In (Some site) (map MonitoringLocationIdentifier filtered))
  /\ (forall ln,
        In ln (trend filtered) ->
        exists rows,
          Permutation rows (get_group filtered (line_label ln))
          /\ (forall r, In r rows <->
                        In r filtered
                        /\ MonitoringLocationIdentifier r
                           = Some (line_label ln))
          /\ ascending (map ActivityStartDate rows)
          /\ xdata ln = map ActivityStartDate rows
          /\ ydata ln = map ResultMeasureValue rows)
  /\ (forall r site,
        In r filtered -> MonitoringLocationIdentifier r = Some site ->
        exists ln,
          In ln (trend filtered) /\ line_label ln = site
          /\ In (point_of r) (points ln))
  /\ (forall (P : Parsers) w station_df measurements characteristic b,
        selection w measurements characteristic b = filtered ->
        In (st_pyplot characteristic (trend filtered))
           (dashboard w station_df measurements characteristic b)).
Proof.
  split; [rewrite trend_labels; apply group_keys_NoDup|].
  split; [intros site; rewrite trend_labels; apply group_keys_In|].
  split; [|split].
  - intros ln (site & Hsite & ->)%trend_In.
    exists (sort_values (get_group filtered site)). simpl.
    split; [apply sort_values_perm|].
    split; [|split; [apply sort_values_ascending | split; reflexivity]].
    intros r. rewrite <- get_group_In.
    split; apply Permutation_in;
      [apply sort_values_perm | symmetry; apply sort_values_perm].
  - intros r site Hr Hid.
    exists (plot_group (site, get_group filtered site)).
    split; [|split; [reflexivity|]].
    + apply trend_In. exists site. split; [|reflexivity].
      apply group_keys_In. rewrite <- Hid. now apply in_map.
    + rewrite points_plot_group. apply in_map. simpl.
      apply (Permutation_in _ (Permutation_sym (sort_values_perm _))).
      now apply get_group_In.
  - intros P w station_df measurements characteristic b <-.
    unfold dashboard, trend_section.
    apply in_or_app. right. apply in_or_app. right. simpl. auto.
Qed.

End Trend.

(** ** The small upload, run *)
Section ScenarioRuns.
Import Scenario.
Local Open Scope string_scope.

(** The run nobody touched: three records, one marker (s1), two lines
    (s1 with 5 then 15, and s2, which has no marker). *)
Example scenario_untouched :
  selection untouched narrowresult_df (Some "Lead")
            {| min_value := of_Z 5; max_value := of_Z 15;
               min_date := d2020_01_01; max_date := d2020_06_01 |}
  = narrowresult_df
  /\ map Station.identifier (filtered_stations station_df narrowresult_df)
     = [Some "s1"]
  /\ map line_label (trend narrowresult_df) = ["s1"; "s2"]
  /\ map ydata (trend narrowresult_df)
     = [[of_Z 5; of_Z 15]; [of_Z 10]].
Proof. vm_compute. repeat split. Qed.

(** Both ends of both ranges are kept, what lies beyond them is not. *)
Example scenario_inclusive_ends :
  map ResultMeasureValue
      (filtered_df narrowresult_df (Some "Lead") (of_Z 5, of_Z 10)
                   (d2020_01_01, d2020_12_31))
  = [of_Z 5; of_Z 10]
  /\ map ResultMeasureValue
         (filtered_df narrowresult_df (Some "Lead") (of_Z 6, of_Z 9)
                      (d2020_01_01, d2020_12_31))
     = []
  /\ map ResultMeasureValue
         (filtered_df narrowresult_df (Some "Lead") (of_Z 0, of_Z 20)
                      (d2020_01_01, d2020_03_01))
     = [of_Z 5; of_Z 10]
  /\ map ResultMeasureValue
         (filtered_df narrowresult_df (Some "Lead") (of_Z 0, of_Z 20)
                      (d2020_01_01 + 1, d2020_03_01 - 1)%Z)
     = [].
Proof. vm_compute. repeat split. Qed.

Lemma C2_witness :
  In (Some "Lead") (contaminants (narrowresult_table narrowresult_file))
  /\ exists b,
       bounds (narrowresult_table narrowresult_file) (Some "Lead") = Some b
       /\ filtered_df (narrowresult_table narrowresult_file) (Some "Lead")
                      (min_value b, max_value b) (min_date b, max_date b)
          = filtered_initial (narrowresult_table narrowresult_file)
                             (Some "Lead")
       /\ selection untouched (narrowresult_table narrowresult_file)
                    (Some "Lead") b
          = filtered_initial (narrowresult_table narrowresult_file)
                             (Some "Lead")
       /\ forall r,
            In r (selection untouched (narrowresult_table narrowresult_file)
                            (Some "Lead") b)
            <-> In r (narrowresult_table narrowresult_file)
                /\ CharacteristicName r = Some "Lead".
Proof.
  assert (H : In (Some "Lead")
                 (contaminants (narrowresult_table narrowresult_file)))
    by (vm_compute; auto).
  split; [exact H|].
  exact (C2_full_default_range_keeps_the_characteristic
           narrowresult_file "Lead" H).
Defined.


Lemma C10_witness :
  In (Some "Lead") (contaminants (narrowresult_table narrowresult_file))
  /\ filtered_initial (narrowresult_table narrowresult_file) (Some "Lead")
     <> []
  /\ exists b,
       bounds (narrowresult_table narrowresult_file) (Some "Lead") = Some b
       /\ (selectbox untouched
                     (contaminants (narrowresult_table narrowresult_file))
           = Some "Lead" ->
           analysis untouched station_file narrowresult_file
           = ([st_header "Contaminant and Filter Options";
               st_selectbox "Select Contaminant"
                 (contaminants (narrowresult_table narrowresult_file))]
              ++ dashboard untouched (station_table station_file)
                   (narrowresult_table narrowresult_file) (Some "Lead") b)%list
           /\ forall body,
                ~ In (st_error body)
                     (analysis untouched station_file narrowresult_file)).
Proof.
  assert (H : In (Some "Lead")
                 (contaminants (narrowresult_table narrowresult_file)))
    by (vm_compute; auto).
  split; [exact H|].
  exact (C10_a_named_contaminant_is_never_empty
           untouched station_file narrowresult_file "Lead" H).
Defined.

(** C6 fails as stated: a station whose latitude is the text "unknown"
    has a latitude, so loading keeps it, and its latitude is no number. *)
Lemma C6_counterexample :
  load_station_data [unsurveyed] = [unsurveyed]
  /\ In (clean_station unsurveyed) (station_table [unsurveyed])
  /\ is_numeric (Station.LatitudeMeasure unsurveyed) = false
  /\ ~ (forall file r,
          In r (load_station_data file) ->
          is_numeric (Station.LatitudeMeasure r) = true
          /\ is_numeric (Station.LongitudeMeasure r) = true).
Proof.
  split; [reflexivity|]. split; [now left|]. split; [reflexivity|].
  intros H. destruct (H [unsurveyed] unsurveyed) as [Hlat _].
  - now left.
  - discriminate Hlat.
Qed.

(** C10 fails as stated: a record with a date and a value but no
    characteristic name is loaded; the missing name is among the options
    of the select box, and it is what the untouched select box returns;
    no row equals it, there are no bounds, and the run shows the error
    message. *)
Lemma C10_counterexample :
  contaminants (narrowresult_table [unnamed]) = [None]
  /\ In (selectbox untouched (contaminants (narrowresult_table [unnamed])))
        (contaminants (narrowresult_table [unnamed]))
  /\ filtered_initial (narrowresult_table [unnamed]) None = []
  /\ bounds (narrowresult_table [unnamed]) None = None
  /\ analysis untouched station_file [unnamed]
     = [st_header "Contaminant and Filter Options";
        st_selectbox "Select Contaminant" [None];
        st_error "No records found for the selected contaminant."].
Proof.
  split; [reflexivity|]. split; [now left|]. repeat split.
Qed.

End ScenarioRuns.


(* ================================================================== *)
(** * Part III: further properties of the script *)
(* ================================================================== *)

(** ** More on the order of float64 values *)
Module Float64Order.
Import Float64Facts.

Lemma leb_nan_l x : leb nan x = false.
Proof. reflexivity. Qed.

Lemma leb_nan_r x : leb x nan = false.
Proof. destruct x; reflexivity. Qed.

Lemma is_nan_eq x : is_nan x = true -> x = nan.
Proof. destruct x; simpl; intros H; try discriminate H; reflexivity. Qed.

(** [x <= y] excludes [y < x]. *)
Lemma leb_not_ltb x y : leb x y = true -> ltb y x = false.
Proof.
  unfold leb, ltb, SFleb, SFltb, SFcompare.
  destruct x as [s|s| |s m e], y as [s'|s'| |s' m' e'];
    try destruct s; try destruct s'; simpl; intros H; try reflexivity;
    try discriminate; cmp_cases; try reflexivity; try discriminate; try lia.
Qed.

End Float64Order.

(** ** Loading, row by row *)
Section LoadingRows.
Context {P : Parsers}.







Lemma dashboard_no_info w station_df df c b body :
  ~ In (st_info body) (dashboard w station_df df c b).
Proof.
  unfold dashboard, map_section, trend_section.
  destruct (filtered_stations station_df (selection w df c b));
    simpl; intros H; repeat destruct H as [H|H]; try discriminate; exact H.
Qed.

Lemma analysis_no_info w sf nf body : ~ In (st_info body) (analysis w sf nf).
Proof.
  unfold analysis. simpl. intros [H|[H|H]]; try discriminate.
  destruct (bounds _ _).
  - now apply dashboard_no_info in H.
  - destruct H as [H|[]]. discriminate.
Qed.

(** X3: while one of the two uploads is missing the run shows the opening
    elements and the request to upload, and nothing else; with both it
    shows the opening elements and the analysis; and the request to upload
    is never shown once both files are there. *)
Theorem X3_the_script_waits_for_both_uploads
  (w : Widgets) (station_file : option (list Station.row))
  (narrowresult_file : option (list raw)) :
  (station_file = None \/ narrowresult_file = None ->
   app w station_file narrowresult_file
   = preamble
     ++ [st_info
           "Please upload both databases (CSV files) in the sidebar to continue."])
  /\ (forall sf nf,
        station_file = Some sf -> narrowresult_file = Some nf ->
        app w station_file narrowresult_file = preamble ++ analysis w sf nf)
  /\ (forall body,
        In (st_info body) (app w station_file narrowresult_file) ->
        station_file = None \/ narrowresult_file = None).
Proof.
  split; [|split].
  - intros [-> | ->]; [reflexivity|]. now destruct station_file.
  - intros sf nf -> ->. reflexivity.
  - intros body Hin.
    destruct station_file as [sf|]; [|now left].
    destruct narrowresult_file as [nf|]; [|now right].
    exfalso. unfold app in Hin. apply in_app_or in Hin.
    destruct Hin as [Hin|Hin].
    + simpl in Hin. repeat destruct Hin as [Hin|Hin]; try discriminate.
      exact Hin.
    + now apply analysis_no_info in Hin.
Qed.

End LoadingRows.

(** ** More on the filter engine *)
Section EngineMore.
Import Float64Facts Float64Order ColumnFacts.
Context {P : Parsers}.

Lemma filter_filter {A} (p q : A -> bool) l :
  filter q (filter p l) = filter (fun x => p x && q x) l.
Proof.
  induction l as [|x l IH]; simpl; [reflexivity|].
  destruct (p x); simpl; [destruct (q x)|]; now rewrite IH.
Qed.

Lemma filter_none {A} (p : A -> bool) l :
  (forall x, In x l -> p x = false) -> filter p l = [].
Proof.
  induction l as [|x l IH]; simpl; intros H; [reflexivity|].
  rewrite (H x (or_introl eq_refl)). apply IH. intros y Hy. apply H. now right.
Qed.

Lemma mask_split c range start_date end_date r :
  mask c range start_date end_date r
  = eq_value (CharacteristicName r) c
    && in_ranges range start_date end_date r.
Proof.
  unfold mask, in_ranges.
  now destruct (eq_value (CharacteristicName r) c).
Qed.

(** X4: the filtered table is the table of the selected contaminant cut
    down by the range tests, in the order of the table; so a run never
    counts more records than the contaminant has, whatever the widgets
    answer. *)
Theorem X4_filtered_rows_come_from_the_contaminant
  (df : list row) (c : label) (range : float * float) (dates : date * date) :
  filtered_df df c range dates
  = filter (in_ranges range (fst dates) (snd dates)) (filtered_initial df c)
  /\ List.length (filtered_df df c range dates)
     <= List.length (filtered_initial df c)
  /\ forall w b,
       List.length (selection w df c b) <= List.length (filtered_initial df c).
Proof.
  assert (E : forall rg ds,
             filtered_df df c rg ds
             = filter (in_ranges rg (fst ds) (snd ds)) (filtered_initial df c)).
  { intros rg ds. unfold filtered_df, filtered_initial.
    rewrite filter_filter. apply filter_ext. intros r. apply mask_split. }
  split; [apply E|]. split.
  - rewrite E. apply filter_length_le.
  - intros w b. unfold selection. rewrite E. apply filter_length_le.
Qed.

(** X5: widening a range never loses a row: a row kept for a value range
    and a date range is kept for any ranges that contain them. *)
Theorem X5_wider_ranges_keep_every_row
  (df : list row) (c : label) (lo hi lo' hi' : float)
  (start_date end_date start_date' end_date' : date) (r : row) :
  leb lo' lo = true -> leb hi hi' = true ->
  (start_date' <= start_date)%Z -> (end_date <= end_date')%Z ->
  In r (filtered_df df c (lo, hi) (start_date, end_date)) ->
  In r (filtered_df df c (lo', hi') (start_date', end_date')).
Proof.
  intros Hlo Hhi Hs He. unfold filtered_df. rewrite !filter_In.
  intros [Hin Hm]. split; [exact Hin|].
  unfold mask, geb in *. cbn [fst snd] in *.
  rewrite !andb_true_iff in *. rewrite !Z.leb_le in *.
  destruct Hm as ((((Hc & H1) & H2) & H3) & H4).
  repeat split; try assumption; try lia.
  - now apply (leb_trans _ lo).
  - now apply (leb_trans _ hi).
Qed.

(** X6: a value range with a NaN end or with its ends the wrong way
    round, and a date range that ends before it starts, keep no row. *)
Theorem X6_an_empty_range_keeps_nothing
  (df : list row) (c : label) (lo hi : float) (start_date end_date : date) :
  is_nan lo = true \/ is_nan hi = true \/ ltb hi lo = true
  \/ (end_date < start_date)%Z ->
  filtered_df df c (lo, hi) (start_date, end_date) = [].
Proof.
  intros H. unfold filtered_df. apply filter_none. intros r _.
  unfold mask, geb. cbn [fst snd].
  destruct (eq_value (CharacteristicName r) c); [|reflexivity].
  rewrite andb_true_l.
  destruct (leb lo (ResultMeasureValue r)) eqn:E1; [|reflexivity].
  destruct (leb (ResultMeasureValue r) hi) eqn:E2; [|reflexivity].
  destruct H as [H|[H|[H|H]]].
  - apply is_nan_eq in H. subst lo. discriminate E1.
  - apply is_nan_eq in H. subst hi. now rewrite leb_nan_r in E2.
  - pose proof (leb_not_ltb _ _ (leb_trans _ _ _ E1 E2)). congruence.
  - simpl.
    destruct (Z.leb start_date (dt_date (ActivityStartDate r))) eqn:E3;
      [|reflexivity].
    apply Z.leb_le in E3. simpl. apply Z.leb_gt. lia.
Qed.

Lemma clean_results_filter (p : row -> bool) df :
  (forall r, p (clean_result r) = p r) ->
  filter p (clean_results df) = clean_results (filter p df).
Proof.
  intros H. unfold clean_results. rewrite filter_map_swap.
  f_equal. apply filter_ext. exact H.
Qed.

(** X7: cleaning the identifiers touches nothing the filter reads: the
    contaminants and the bounds of the cleaned table are those of the
    table, and filtering the cleaned table is cleaning the filtered table.
    *)
Theorem X7_cleaning_commutes_with_the_filter
  (df : list row) (c : label) (range : float * float) (dates : date * date) :
  contaminants (clean_results df) = contaminants df
  /\ bounds (clean_results df) c = bounds df c
  /\ filtered_initial (clean_results df) c
     = clean_results (filtered_initial df c)
  /\ filtered_df (clean_results df) c range dates
     = clean_results (filtered_df df c range dates).
Proof.
  assert (E : filtered_initial (clean_results df) c
              = clean_results (filtered_initial df c))
    by (apply clean_results_filter; reflexivity).
  split; [|split; [|split]].
  - unfold contaminants, clean_results. now rewrite map_map.
  - unfold bounds. rewrite E. unfold bounds_of, clean_results.
    now rewrite !map_map.
  - exact E.
  - apply clean_results_filter. reflexivity.
Qed.

Lemma unique_acc_seen s1 s2 l :
  (forall a, isin a s1 = isin a s2) -> unique_acc s1 l = unique_acc s2 l.
Proof.
  revert s1 s2. induction l as [|a l IH]; intros s1 s2 H; simpl;
    [reflexivity|].
  rewrite <- (H a). destruct (isin a s1); [now apply IH|].
  f_equal. apply IH. intros b. simpl. now rewrite H.
Qed.

Lemma isin_app a s1 s2 : isin a (s1 ++ s2) = isin a s1 || isin a s2.
Proof. unfold isin. apply existsb_app. Qed.

Lemma unique_acc_filter seen' seen l :
  unique_acc (seen' ++ seen) l
  = filter (fun b => negb (isin b seen')) (unique_acc seen l).
Proof.
  revert seen. induction l as [|a l IH]; intros seen; simpl; [reflexivity|].
  rewrite isin_app. destruct (isin a seen) eqn:E1.
  - rewrite orb_true_r. apply IH.
  - rewrite orb_false_r. simpl. destruct (isin a seen') eqn:E2; simpl.
    + rewrite <- IH. apply unique_acc_seen. intros b.
      rewrite !isin_app. simpl.
      destruct (label_eqb b a) eqn:Eb; [|reflexivity].
      apply label_eqb_eq in Eb. subst b. now rewrite E2.
    + f_equal. rewrite <- IH. apply unique_acc_seen. intros b.
      rewrite isin_app. simpl. rewrite isin_app. simpl.
      now destruct (label_eqb b a), (isin b seen').
Qed.

(** X8: the options of the select box are the characteristic names of the
    table, each once, in the order they first appear: the name of the
    first row leads, followed by the options of the rest without it; so
    the untouched select box selects the contaminant of the first row. *)
Theorem X8_contaminants_in_order_of_first_appearance
  (r : row) (df : list row) :
  NoDup (contaminants (r :: df))
  /\ (forall c, In c (contaminants (r :: df))
                <-> exists x, In x (r :: df) /\ CharacteristicName x = c)
  /\ contaminants (r :: df)
     = CharacteristicName r
       :: filter (fun c => negb (label_eqb c (CharacteristicName r)))
                 (contaminants df)
  /\ selectbox untouched (contaminants (r :: df)) = CharacteristicName r.
Proof.
  assert (E : contaminants (r :: df)
              = CharacteristicName r
                :: filter (fun c => negb (label_eqb c (CharacteristicName r)))
                          (contaminants df)).
  { unfold contaminants, unique. simpl. f_equal.
    rewrite (unique_acc_filter [CharacteristicName r] []).
    apply filter_ext. intros b. simpl. now rewrite orb_false_r. }
  split; [apply unique_NoDup|]. split; [apply contaminants_In|].
  split; [exact E|]. now rewrite E.
Qed.

Lemma bounds_of_empty_table c : bounds [] c = None.
Proof. reflexivity. Qed.

(** X9: when no record of the upload has both a date and a value, the
    select box has no option and the run ends with the error message,
    whatever the widgets answer. *)
Theorem X9_an_upload_without_records_ends_in_the_message
  (w : Widgets) (station_file : list Station.row) (file : list raw) :
  narrowresult_table file = [] ->
  contaminants (narrowresult_table file) = []
  /\ analysis w station_file file
     = [st_header "Contaminant and Filter Options";
        st_selectbox "Select Contaminant" [];
        st_error "No records found for the selected contaminant."].
Proof.
  intros E. unfold analysis. rewrite E. split; reflexivity.
Qed.

(** X10: the bounds handed to the range widgets are in order and are
    numbers: the lower value bound is at most the upper one, neither is
    NaN, and the first date is not after the last. *)
Theorem X10_bounds_are_in_order
  (file : list raw) (c : label) (b : bounds_t) :
  bounds (narrowresult_table file) c = Some b ->
  leb (min_value b) (max_value b) = true
  /\ is_nan (min_value b) = false /\ is_nan (max_value b) = false
  /\ (min_date b <= max_date b)%Z.
Proof.
  intros Hb.
  destruct (bounds_of_spec _ _
              (filtered_initial_notna _ c (loaded_notna file)) Hb)
    as ((Hin & Hmin) & (Hin' & _) & (Hd & Hd0) & (Hd' & _)).
  pose proof (Hmin _ Hin') as Hle.
  split; [exact Hle|].
  apply leb_notna_l in Hle as Hl. apply leb_notna_r in Hle as Hr.
  unfold notna in Hl, Hr. rewrite negb_true_iff in Hl, Hr.
  split; [exact Hl|]. split; [exact Hr|]. now apply Hd0.
Qed.

Lemma filtered_stations_nil station_df : filtered_stations station_df [] = [].
Proof.
  unfold filtered_stations, station_names. simpl.
  rewrite (filter_none _ station_df); [reflexivity | reflexivity].
Qed.

(** X11: when the ranges leave no record, the run still shows the whole
    dashboard: a count of zero, the message in place of the map, and a
    plot without lines. *)
Theorem X11_an_empty_selection_still_renders
  (w : Widgets) (station_df : list Station.row) (df : list row)
  (c : label) (b : bounds_t) :
  selection w df c b = [] ->
  dashboard w station_df df c b
  = [st_slider "Select Measurement Value Range"
               (min_value b) (max_value b) (min_value b, max_value b);
     st_date_input "Select Date Range"
                   (min_date b, max_date b) (min_date b) (max_date b);
     st_subheader "Filtered Data Overview";
     st_total_records 0;
     st_subheader "Map of Stations (Based on Selected Characteristic)";
     st_write
       "No stations found with the selected criteria for this characteristic.";
     st_subheader "Trend Over Time";
     st_pyplot c []].
Proof.
  intros E. unfold dashboard. rewrite E, filtered_stations_nil. reflexivity.
Qed.

End EngineMore.

(** ** More on the stations and the plot *)
Section StationsMore.
Import ColumnFacts.
Context {P : Parsers}.

(** X12: the cleaning makes the join work: a loaded station and a filtered
    record whose identifiers agree once cleaned (up to case and white space
    around them) meet, so the station is resolved as soon as its
    coordinates convert. *)
Theorem X12_cleaned_identifiers_join_the_tables
  (file : list Station.row) (df : list row) (c : label)
  (range : float * float) (dates : date * date)
  (s : Station.row) (m : row) :
  In s (load_station_data file) ->
  In m (filtered_df df c range dates) ->
  str_strip_lower (Station.MonitoringLocationIdentifier s)
  = str_strip_lower (MonitoringLocationIdentifier m) ->
  notna (to_numeric (Station.LatitudeMeasure s)) = true ->
  notna (to_numeric (Station.LongitudeMeasure s)) = true ->
  In (locate (clean_station s))
     (filtered_stations (station_table file)
                        (filtered_df (clean_results df) c range dates)).
Proof.
  intros Hs Hm Hid Hlat Hlon. apply filtered_stations_In.
  exists (clean_station s).
  split; [apply station_table_In; now exists s|].
  split; [|split; [exact Hlat | split; [exact Hlon | reflexivity]]].
  unfold filtered_df. rewrite clean_results_filter by reflexivity.
  simpl. rewrite Hid. apply in_map_iff. exists (clean_result m).
  split; [reflexivity|]. unfold clean_results. now apply in_map.
Qed.

(** X13: no marker is ever placed at a NaN coordinate, and every marker
    carries an identifier that some filtered record and some station row
    have. *)
Theorem X13_markers_are_located_and_referenced
  (station_df : list Station.row) (filtered : list row) (mk : marker) :
  In mk (markers (m_filtered (filtered_stations station_df filtered))) ->
  is_nan (fst (location mk)) = false
  /\ is_nan (snd (location mk)) = false
  /\ In (popup mk) (map MonitoringLocationIdentifier filtered)
  /\ In (popup mk) (map Station.MonitoringLocationIdentifier station_df).
Proof.
  simpl. intros (r & <- & Hr)%in_map_iff.
  apply filtered_stations_In in Hr.
  destruct Hr as (s & Hs & Hin & Hlat & Hlon & ->). simpl.
  unfold notna in Hlat, Hlon. rewrite negb_true_iff in Hlat, Hlon.
  split; [exact Hlat|]. split; [exact Hlon|]. split; [exact Hin|].
  now apply in_map.
Qed.

(** X14: a station whose coordinates are numbers in the loaded table is
    never dropped at resolution: once a filtered record names it, it is on
    the map at exactly those coordinates. *)
Theorem X14_numeric_coordinates_survive_resolution
  (file : list Station.row) (filtered : list row)
  (s : Station.row) (x y : float) :
  In s (station_table file) ->
  Station.LatitudeMeasure s = Num x ->
  Station.LongitudeMeasure s = Num y ->
  In (Station.MonitoringLocationIdentifier s)
     (map MonitoringLocationIdentifier filtered) ->
  In {| Station.identifier := Station.MonitoringLocationIdentifier s;
        Station.latitude := x;
        Station.longitude := y |}
     (filtered_stations (station_table file) filtered).
Proof.
  intros Hs Hx Hy Hin. apply filtered_stations_In. exists s.
  apply station_table_In in Hs as Hs'. destruct Hs' as (r0 & Hr0 & E).
  apply load_station_data_In in Hr0. destruct Hr0 as (_ & Hlat & Hlon).
  assert (Elat : Station.LatitudeMeasure s = Station.LatitudeMeasure r0)
    by now subst s.
  assert (Elon : Station.LongitudeMeasure s = Station.LongitudeMeasure r0)
    by now subst s.
  rewrite <- Elat, Hx in Hlat. rewrite <- Elon, Hy in Hlon. simpl in Hlat, Hlon.
  split; [exact Hs|]. split; [exact Hin|].
  unfold locate. rewrite Hx, Hy. simpl. unfold notna. rewrite Hlat, Hlon.
  repeat split.
Qed.

(** X15: the resolved stations depend on the filtered records only
    through the set of their identifiers: two filtered tables that name
    the same stations resolve the same rows, in the same order. *)
Theorem X15_resolution_reads_only_the_identifiers
  (station_df : list Station.row) (f1 f2 : list row) :
  (forall a, In a (map MonitoringLocationIdentifier f1)
             <-> In a (map MonitoringLocationIdentifier f2)) ->
  filtered_stations station_df f1 = filtered_stations station_df f2.
Proof.
  intros H. unfold filtered_stations, station_names.
  do 2 f_equal. apply filter_ext. intros s.
  apply eq_true_iff_eq. now rewrite !isin_In, !unique_In.
Qed.

End StationsMore.

Section TrendMore.
Import ColumnFacts.

Lemma insert_key_increasing k l :
  increasing l -> increasing (insert_key k l).
Proof.
  unfold increasing. induction l as [|x l IH]; simpl; intros Hs.
  - repeat constructor.
  - destruct (String.leb k x) eqn:E.
    + constructor; [exact Hs|]. now constructor.
    + assert (Hx : String.leb x k = true)
        by (destruct (String.leb_total k x); congruence).
      inversion Hs as [|? ? Hl Hh]; subst.
      constructor; [now apply IH|].
      destruct l as [|y l']; simpl.
      * now constructor.
      * destruct (String.leb k y); constructor; [exact Hx|].
        now inversion Hh.
Qed.

Lemma sort_keys_increasing l : increasing (sort_keys l).
Proof.
  induction l as [|k l IH]; simpl.
  - constructor.
  - now apply insert_key_increasing.
Qed.

Lemma filter_or_length {A} (p q : A -> bool) l :
  (forall x, In x l -> p x = true -> q x = true -> False) ->
  List.length (filter (fun x => p x || q x) l)
  = List.length (filter p l) + List.length (filter q l).
Proof.
  induction l as [|x l IH]; simpl; intros H; [reflexivity|].
  assert (IH' := IH (fun y Hy => H y (or_intror Hy))).
  pose proof (H x (or_introl eq_refl)) as Hx.
  destruct (p x), (q x); simpl; rewrite IH'; solve [lia | exfalso; now apply Hx].
Qed.

Lemma key_in_In keys r :
  key_in keys r = true <->
  exists s, MonitoringLocationIdentifier r = Some s /\ In s keys.
Proof.
  unfold key_in. destruct (MonitoringLocationIdentifier r) as [s|].
  - rewrite existsb_exists. split.
    + intros (k & Hk & E). apply String.eqb_eq in E. subst k. now exists s.
    + intros (s' & [= <-] & Hs). exists s. split; [exact Hs|].
      apply String.eqb_refl.
  - split; [discriminate | now intros (s & E & _)].
Qed.

(** The groups of distinct keys hold, together, the rows that name one of
    the keys. *)
Lemma groups_length df keys :
  NoDup keys ->
  list_sum (map (fun k => List.length (get_group df k)) keys)
  = List.length (filter (key_in keys) df).
Proof.
  induction 1 as [|k keys Hk Hnd IH]; simpl.
  - rewrite filter_none; [reflexivity|]. intros r _. unfold key_in.
    now destruct (MonitoringLocationIdentifier r).
  - rewrite IH. unfold get_group.
    rewrite <- filter_or_length.
    + f_equal. apply filter_ext. intros r. unfold key_in.
      destruct (MonitoringLocationIdentifier r) as [s|]; reflexivity.
    + intros r _ E1 E2. apply eq_value_Some in E1. apply key_in_In in E2.
      destruct E2 as (s & E & Hs). congruence.
Qed.

(** X16: the plot shows every filtered row that names a station exactly
    once: its lines hold, together, as many points as there are such rows;
    each line has as many values as timestamps, and at least one. *)
Theorem X16_every_identified_row_is_plotted_once (filtered : list row) :
  count_points (trend filtered)
  = List.length (filter has_identifier filtered)
  /\ forall ln,
       In ln (trend filtered) ->
       List.length (xdata ln) = List.length (ydata ln) /\ xdata ln <> [].
Proof.
  split.
  - unfold count_points, trend, groupby. rewrite !map_map.
    rewrite (map_ext _ (fun k => List.length (get_group filtered k))).
    + rewrite (groups_length filtered _ (group_keys_NoDup filtered)).
      f_equal. apply filter_ext_in. intros r Hr.
      unfold has_identifier.
      destruct (MonitoringLocationIdentifier r) as [s|] eqn:E.
      * apply key_in_In. exists s. split; [exact E|].
        apply group_keys_In. rewrite <- E. now apply in_map.
      * unfold key_in. now rewrite E.
    + intros k. simpl. rewrite length_map.
      apply Permutation_length, sort_values_perm.
  - intros ln (site & Hsite & ->)%trend_In. simpl.
    rewrite !length_map. split; [reflexivity|].
    apply group_keys_In, in_map_iff in Hsite.
    destruct Hsite as (r & E & Hr).
    assert (Hg : In r (sort_values (get_group filtered site))).
    { apply (Permutation_in _ (Permutation_sym (sort_values_perm _))).
      now apply get_group_In. }
    intros Hnil. destruct (sort_values (get_group filtered site));
      [exact Hg | discriminate Hnil].
Qed.

(** X17: the lines of the plot come in increasing order of their station
    identifiers, whatever the order of the records. *)
Theorem X17_lines_come_in_increasing_order_of_station (filtered : list row) :
  increasing (map line_label (trend filtered)).
Proof. rewrite trend_labels. apply sort_keys_increasing. Qed.

End TrendMore.

(** ** The small upload, visited *)
Section VisitRuns.
Import Scenario Visit.
Local Open Scope string_scope.

Lemma X5_witness :
  leb (of_Z 0) (of_Z 5) = true
  /\ leb (of_Z 10) (of_Z 20) = true
  /\ (d2020_01_01 <= d2020_01_01)%Z
  /\ (d2020_03_01 <= d2020_12_31)%Z
  /\ In first_record
        (filtered_df narrowresult_df (Some "Lead") (of_Z 5, of_Z 10)
                     (d2020_01_01, d2020_03_01))
  /\ In first_record
        (filtered_df narrowresult_df (Some "Lead") (of_Z 0, of_Z 20)
                     (d2020_01_01, d2020_12_31)).
Proof.
  assert (H1 : leb (of_Z 0) (of_Z 5) = true) by reflexivity.
  assert (H2 : leb (of_Z 10) (of_Z 20) = true) by reflexivity.
  assert (H3 : (d2020_01_01 <= d2020_01_01)%Z) by (vm_compute; discriminate).
  assert (H4 : (d2020_03_01 <= d2020_12_31)%Z) by (vm_compute; discriminate).
  assert (H5 : In first_record
                  (filtered_df narrowresult_df (Some "Lead")
                               (of_Z 5, of_Z 10) (d2020_01_01, d2020_03_01)))
    by (vm_compute; auto).
  repeat (split; [assumption|]).
  exact (X5_wider_ranges_keep_every_row
           narrowresult_df (Some "Lead") (of_Z 5) (of_Z 10) (of_Z 0) (of_Z 20)
           d2020_01_01 d2020_03_01 d2020_01_01 d2020_12_31 first_record
           H1 H2 H3 H4 H5).
Defined.

Lemma X6_witness :
  (is_nan (of_Z 10) = true \/ is_nan (of_Z 5) = true
   \/ ltb (of_Z 5) (of_Z 10) = true
   \/ (d2020_12_31 < d2020_01_01)%Z)
  /\ filtered_df narrowresult_df (Some "Lead") (of_Z 10, of_Z 5)
                 (d2020_01_01, d2020_12_31)
     = [].
Proof.
  assert (H : is_nan (of_Z 10) = true \/ is_nan (of_Z 5) = true
              \/ ltb (of_Z 5) (of_Z 10) = true
              \/ (d2020_12_31 < d2020_01_01)%Z)
    by (right; right; left; reflexivity).
  split; [exact H|].
  exact (X6_an_empty_range_keeps_nothing
           narrowresult_df (Some "Lead") (of_Z 10) (of_Z 5)
           d2020_01_01 d2020_12_31 H).
Defined.

Lemma X9_witness :
  narrowresult_table [undated] = []
  /\ contaminants (narrowresult_table [undated]) = []
  /\ analysis untouched station_file [undated]
     = [st_header "Contaminant and Filter Options";
        st_selectbox "Select Contaminant" [];
        st_error "No records found for the selected contaminant."].
Proof.
  assert (H : narrowresult_table [undated] = []) by reflexivity.
  split; [exact H|].
  exact (X9_an_upload_without_records_ends_in_the_message
           untouched station_file [undated] H).
Defined.

Lemma X10_witness :
  bounds (narrowresult_table narrowresult_file) (Some "Lead")
  = Some lead_bounds
  /\ leb (min_value lead_bounds) (max_value lead_bounds) = true
  /\ is_nan (min_value lead_bounds) = false
  /\ is_nan (max_value lead_bounds) = false
  /\ (min_date lead_bounds <= max_date lead_bounds)%Z.
Proof.
  assert (H : bounds (narrowresult_table narrowresult_file) (Some "Lead")
              = Some lead_bounds) by (vm_compute; reflexivity).
  split; [exact H|].
  exact (X10_bounds_are_in_order narrowresult_file (Some "Lead") lead_bounds H).
Defined.

Lemma X11_witness :
  selection two_quiet_days narrowresult_df (Some "Lead") lead_bounds = []
  /\ dashboard two_quiet_days station_df narrowresult_df (Some "Lead")
               lead_bounds
     = [st_slider "Select Measurement Value Range"
                  (min_value lead_bounds) (max_value lead_bounds)
                  (min_value lead_bounds, max_value lead_bounds);
        st_date_input "Select Date Range"
                      (min_date lead_bounds, max_date lead_bounds)
                      (min_date lead_bounds) (max_date lead_bounds);
        st_subheader "Filtered Data Overview";
        st_total_records 0;
        st_subheader "Map of Stations (Based on Selected Characteristic)";
        st_write
          "No stations found with the selected criteria for this characteristic.";
        st_subheader "Trend Over Time";
        st_pyplot (Some "Lead") []].
Proof.
  assert (H : selection two_quiet_days narrowresult_df (Some "Lead")
                        lead_bounds = []) by (vm_compute; reflexivity).
  split; [exact H|].
  exact (X11_an_empty_selection_still_renders
           two_quiet_days station_df narrowresult_df (Some "Lead")
           lead_bounds H).
Defined.

Lemma X12_witness :
  In first_station (load_station_data station_file)
  /\ In first_record
        (filtered_df (load_narrowresult_data narrowresult_file) (Some "Lead")
                     (of_Z 0, of_Z 20) (d2020_01_01, d2020_12_31))
  /\ str_strip_lower (Station.MonitoringLocationIdentifier first_station)
     = str_strip_lower (MonitoringLocationIdentifier first_record)
  /\ notna (to_numeric (Station.LatitudeMeasure first_station)) = true
  /\ notna (to_numeric (Station.LongitudeMeasure first_station)) = true
  /\ In (locate (clean_station first_station))
        (filtered_stations
           (station_table station_file)
           (filtered_df (clean_results
                           (load_narrowresult_data narrowresult_file))
                        (Some "Lead") (of_Z 0, of_Z 20)
                        (d2020_01_01, d2020_12_31))).
Proof.
  assert (H1 : In first_station (load_station_data station_file))
    by (vm_compute; auto).
  assert (H2 : In first_record
                  (filtered_df (load_narrowresult_data narrowresult_file)
                               (Some "Lead") (of_Z 0, of_Z 20)
                               (d2020_01_01, d2020_12_31)))
    by (vm_compute; auto).
  assert (H3 : str_strip_lower
                 (Station.MonitoringLocationIdentifier first_station)
               = str_strip_lower (MonitoringLocationIdentifier first_record))
    by reflexivity.
  assert (H4 : notna (to_numeric (Station.LatitudeMeasure first_station))
               = true) by reflexivity.
  assert (H5 : notna (to_numeric (Station.LongitudeMeasure first_station))
               = true) by reflexivity.
  repeat (split; [assumption|]).
  exact (X12_cleaned_identifiers_join_the_tables
           station_file (load_narrowresult_data narrowresult_file)
           (Some "Lead") (of_Z 0, of_Z 20) (d2020_01_01, d2020_12_31)
           first_station first_record H1 H2 H3 H4 H5).
Defined.

Lemma X13_witness :
  In {| location := (of_Z 40, of_Z (-75)); popup := Some "s1" |}
     (markers (m_filtered (filtered_stations station_df narrowresult_df)))
  /\ is_nan (of_Z 40) = false
  /\ is_nan (of_Z (-75)) = false
  /\ In (Some "s1") (map MonitoringLocationIdentifier narrowresult_df)
  /\ In (Some "s1") (map Station.MonitoringLocationIdentifier station_df).
Proof.
  assert (H : In {| location := (of_Z 40, of_Z (-75)); popup := Some "s1" |}
                 (markers (m_filtered
                             (filtered_stations station_df narrowresult_df))))
    by (vm_compute; auto).
  split; [exact H|].
  exact (X13_markers_are_located_and_referenced
           station_df narrowresult_df
           {| location := (of_Z 40, of_Z (-75)); popup := Some "s1" |} H).
Defined.

Lemma X14_witness :
  In (clean_station first_station) (station_table station_file)
  /\ Station.LatitudeMeasure (clean_station first_station) = Num (of_Z 40)
  /\ Station.LongitudeMeasure (clean_station first_station)
     = Num (of_Z (-75))
  /\ In (Station.MonitoringLocationIdentifier (clean_station first_station))
        (map MonitoringLocationIdentifier narrowresult_df)
  /\ In {| Station.identifier :=
             Station.MonitoringLocationIdentifier (clean_station first_station);
           Station.latitude := of_Z 40;
           Station.longitude := of_Z (-75) |}
        (filtered_stations (station_table station_file) narrowresult_df).
Proof.
  assert (H1 : In (clean_station first_station) (station_table station_file))
    by (vm_compute; auto).
  assert (H2 : Station.LatitudeMeasure (clean_station first_station)
               = Num (of_Z 40)) by reflexivity.
  assert (H3 : Station.LongitudeMeasure (clean_station first_station)
               = Num (of_Z (-75))) by reflexivity.
  assert (H4 : In (Station.MonitoringLocationIdentifier
                     (clean_station first_station))
                  (map MonitoringLocationIdentifier narrowresult_df))
    by (vm_compute; auto).
  repeat (split; [assumption|]).
  exact (X14_numeric_coordinates_survive_resolution
           station_file narrowresult_df (clean_station first_station)
           (of_Z 40) (of_Z (-75)) H1 H2 H3 H4).
Defined.

Lemma X15_witness :
  (forall a, In a (map MonitoringLocationIdentifier narrowresult_df)
             <-> In a (map MonitoringLocationIdentifier
                           (rev narrowresult_df)))
  /\ filtered_stations station_df narrowresult_df
     = filtered_stations station_df (rev narrowresult_df).
Proof.
  assert (H : forall a,
             In a (map MonitoringLocationIdentifier narrowresult_df)
             <-> In a (map MonitoringLocationIdentifier
                           (rev narrowresult_df)))
    by (intros a; rewrite map_rev; apply in_rev).
  split; [exact H|].
  exact (X15_resolution_reads_only_the_identifiers
           station_df narrowresult_df (rev narrowresult_df) H).
Defined.

End VisitRuns.
